(** * lmk: workspace membership, invitations, project members and
      notification delivery

    A shallow embedding of the TypeScript services of the repository
    (WorkspaceService, ProjectService, NotificationService, their MongoDB
    repositories and the two invitation routes) and the properties of the
    access-control and notification core that hold of them.

    Conventions of the embedding.
    - A [Date] is the number of milliseconds since the epoch; [new Date()]
      reads the clock of the world.
    - A MongoDB collection is a finite map from the document's [_id]
      (the string form of its ObjectId) to the stored document.  A string
      that is not a valid ObjectId is never a key, so the repositories'
      [ObjectId.isValid] guard and a miss of [findOne] coincide: both give
      [null].
    - An [async] method is a computation in the monad [M]: it reads and
      writes the world and either returns or throws an [Error] with a
      message.  Writes made before a [throw] stay made.
    - JavaScript's [undefined] for an optional field is [None]. *)

From stdpp Require Import base option gmap strings pretty list fin_maps.
From Stdlib Require Import ZArith Lia Ascii.

Definition Date := Z.
Bind Scope Z_scope with Date.

(** ** src/shared/util/BaseId.ts *)

(** Every id class wraps a non-empty string; the embedding keeps the
    string and models the constructor's check with [BaseId_new]. *)
Definition nonEmpty (s : string) : bool :=
  match s with EmptyString => false | String _ _ => true end.

(** ** NotificationDomain.ts *)

Inductive NotificationType := EMAIL | SMS | PUSH.
Inductive NotificationStatus := PENDING | SENT | DELIVERED | FAILED | BOUNCED.
Inductive EmailTemplate :=
  | WORKSPACE_INVITATION | PROJECT_INVITATION | PASSWORD_RESET
  | EMAIL_VERIFICATION | WELCOME | PROJECT_SHARED.

Definition EmailTemplate_toString (t : EmailTemplate) : string :=
  match t with
  | WORKSPACE_INVITATION => "WORKSPACE_INVITATION"
  | PROJECT_INVITATION => "PROJECT_INVITATION"
  | PASSWORD_RESET => "PASSWORD_RESET"
  | EMAIL_VERIFICATION => "EMAIL_VERIFICATION"
  | WELCOME => "WELCOME"
  | PROJECT_SHARED => "PROJECT_SHARED"
  end.

#[global] Instance NotificationType_eq_dec : EqDecision NotificationType.
Proof. solve_decision. Defined.
#[global] Instance NotificationStatus_eq_dec : EqDecision NotificationStatus.
Proof. solve_decision. Defined.

Record EmailAttachment := {
  att_filename : string;
  att_content : string;
  att_contentType : option string;
  att_path : option string }.

Record EmailData := {
  ed_to : list string;
  ed_cc : option (list string);
  ed_bcc : option (list string);
  ed_subject : string;
  ed_template : option EmailTemplate;
  ed_templateData : gmap string string;
  ed_attachments : option (list EmailAttachment) }.

(** [metadata?: Record<string, any>]: the keys the service writes. *)
Record Metadata := {
  md_recipients : option (list string);
  md_cc : option (list string);
  md_bcc : option (list string);
  md_attachments : option nat;
  md_emailData : option EmailData;
  md_messageId : option string;
  md_resentAt : option Date }.

(** [interface NotificationData] *)
Record NotificationData := {
  nd_id : option string;
  nd_type : NotificationType;
  nd_status : NotificationStatus;
  nd_recipient : option string;
  nd_subject : option string;
  nd_content : string;
  nd_templateId : option EmailTemplate;
  nd_templateData : option (gmap string string);
  nd_metadata : option Metadata;
  nd_scheduledAt : option Date;
  nd_sentAt : option Date;
  nd_deliveredAt : option Date;
  nd_failedAt : option Date;
  nd_failureReason : option string;
  nd_retryCount : option nat;
  nd_maxRetries : option nat;
  nd_createdAt : option Date;
  nd_updatedAt : option Date }.

(** [class Notification] *)
Record Notification := {
  n_id : option string;
  n_type : NotificationType;
  n_status : NotificationStatus;
  n_recipient : option string;
  n_subject : option string;
  n_content : string;
  n_templateId : option EmailTemplate;
  n_templateData : option (gmap string string);
  n_metadata : option Metadata;
  n_scheduledAt : option Date;
  n_sentAt : option Date;
  n_deliveredAt : option Date;
  n_failedAt : option Date;
  n_failureReason : option string;
  n_retryCount : nat;
  n_maxRetries : nat;
  n_createdAt : option Date;
  n_updatedAt : option Date }.

(** [x || d] on an optional number: [undefined] and [0] are both falsy. *)
Definition orNat (x : option nat) (d : nat) : nat :=
  match x with
  | Some (S n) => S n
  | _ => d
  end.

(** [x || d] on an optional string: [undefined] and the empty string are
    both falsy. *)
Definition orString (x : option string) (d : string) : string :=
  match x with
  | Some (String c s) => String c s
  | _ => d
  end.

(** [constructor(data: NotificationData)] *)
Definition Notification_new (data : NotificationData) : Notification :=
  {| n_id := nd_id data;
     n_type := nd_type data;
     n_status := nd_status data;
     n_recipient := nd_recipient data;
     n_subject := nd_subject data;
     n_content := nd_content data;
     n_templateId := nd_templateId data;
     n_templateData := nd_templateData data;
     n_metadata := nd_metadata data;
     n_scheduledAt := nd_scheduledAt data;
     n_sentAt := nd_sentAt data;
     n_deliveredAt := nd_deliveredAt data;
     n_failedAt := nd_failedAt data;
     n_failureReason := nd_failureReason data;
     n_retryCount := orNat (nd_retryCount data) 0;
     n_maxRetries := orNat (nd_maxRetries data) 3;
     n_createdAt := nd_createdAt data;
     n_updatedAt := nd_updatedAt data |}.

(** [{ ...notification }]: a notification seen as constructor data. *)
Definition Notification_spread (n : Notification) : NotificationData :=
  {| nd_id := n_id n;
     nd_type := n_type n;
     nd_status := n_status n;
     nd_recipient := n_recipient n;
     nd_subject := n_subject n;
     nd_content := n_content n;
     nd_templateId := n_templateId n;
     nd_templateData := n_templateData n;
     nd_metadata := n_metadata n;
     nd_scheduledAt := n_scheduledAt n;
     nd_sentAt := n_sentAt n;
     nd_deliveredAt := n_deliveredAt n;
     nd_failedAt := n_failedAt n;
     nd_failureReason := n_failureReason n;
     nd_retryCount := Some (n_retryCount n);
     nd_maxRetries := Some (n_maxRetries n);
     nd_createdAt := n_createdAt n;
     nd_updatedAt := n_updatedAt n |}.

(** [{ ...notification, id, createdAt, updatedAt }] *)
Definition nd_set_id_stamps (id : option string) (created updated : option Date)
    (d : NotificationData) : NotificationData :=
  {| nd_id := id; nd_type := nd_type d; nd_status := nd_status d;
     nd_recipient := nd_recipient d; nd_subject := nd_subject d;
     nd_content := nd_content d; nd_templateId := nd_templateId d;
     nd_templateData := nd_templateData d; nd_metadata := nd_metadata d;
     nd_scheduledAt := nd_scheduledAt d; nd_sentAt := nd_sentAt d;
     nd_deliveredAt := nd_deliveredAt d; nd_failedAt := nd_failedAt d;
     nd_failureReason := nd_failureReason d;
     nd_retryCount := nd_retryCount d; nd_maxRetries := nd_maxRetries d;
     nd_createdAt := created; nd_updatedAt := updated |}.

(** Field assignments on a notification object. *)
Definition n_set_status (v : NotificationStatus) (n : Notification) : Notification :=
  {| n_id := n_id n; n_type := n_type n; n_status := v;
     n_recipient := n_recipient n; n_subject := n_subject n;
     n_content := n_content n; n_templateId := n_templateId n;
     n_templateData := n_templateData n; n_metadata := n_metadata n;
     n_scheduledAt := n_scheduledAt n; n_sentAt := n_sentAt n;
     n_deliveredAt := n_deliveredAt n; n_failedAt := n_failedAt n;
     n_failureReason := n_failureReason n; n_retryCount := n_retryCount n;
     n_maxRetries := n_maxRetries n; n_createdAt := n_createdAt n;
     n_updatedAt := n_updatedAt n |}.

Definition n_set_metadata (v : option Metadata) (n : Notification) : Notification :=
  {| n_id := n_id n; n_type := n_type n; n_status := n_status n;
     n_recipient := n_recipient n; n_subject := n_subject n;
     n_content := n_content n; n_templateId := n_templateId n;
     n_templateData := n_templateData n; n_metadata := v;
     n_scheduledAt := n_scheduledAt n; n_sentAt := n_sentAt n;
     n_deliveredAt := n_deliveredAt n; n_failedAt := n_failedAt n;
     n_failureReason := n_failureReason n; n_retryCount := n_retryCount n;
     n_maxRetries := n_maxRetries n; n_createdAt := n_createdAt n;
     n_updatedAt := n_updatedAt n |}.

Definition n_set_sentAt (v : option Date) (n : Notification) : Notification :=
  {| n_id := n_id n; n_type := n_type n; n_status := n_status n;
     n_recipient := n_recipient n; n_subject := n_subject n;
     n_content := n_content n; n_templateId := n_templateId n;
     n_templateData := n_templateData n; n_metadata := n_metadata n;
     n_scheduledAt := n_scheduledAt n; n_sentAt := v;
     n_deliveredAt := n_deliveredAt n; n_failedAt := n_failedAt n;
     n_failureReason := n_failureReason n; n_retryCount := n_retryCount n;
     n_maxRetries := n_maxRetries n; n_createdAt := n_createdAt n;
     n_updatedAt := n_updatedAt n |}.

Definition n_set_deliveredAt (v : option Date) (n : Notification) : Notification :=
  {| n_id := n_id n; n_type := n_type n; n_status := n_status n;
     n_recipient := n_recipient n; n_subject := n_subject n;
     n_content := n_content n; n_templateId := n_templateId n;
     n_templateData := n_templateData n; n_metadata := n_metadata n;
     n_scheduledAt := n_scheduledAt n; n_sentAt := n_sentAt n;
     n_deliveredAt := v; n_failedAt := n_failedAt n;
     n_failureReason := n_failureReason n; n_retryCount := n_retryCount n;
     n_maxRetries := n_maxRetries n; n_createdAt := n_createdAt n;
     n_updatedAt := n_updatedAt n |}.

Definition n_set_failed (at_ : option Date) (reason : option string)
    (n : Notification) : Notification :=
  {| n_id := n_id n; n_type := n_type n; n_status := n_status n;
     n_recipient := n_recipient n; n_subject := n_subject n;
     n_content := n_content n; n_templateId := n_templateId n;
     n_templateData := n_templateData n; n_metadata := n_metadata n;
     n_scheduledAt := n_scheduledAt n; n_sentAt := n_sentAt n;
     n_deliveredAt := n_deliveredAt n; n_failedAt := at_;
     n_failureReason := reason; n_retryCount := n_retryCount n;
     n_maxRetries := n_maxRetries n; n_createdAt := n_createdAt n;
     n_updatedAt := n_updatedAt n |}.

Definition n_set_retryCount (v : nat) (n : Notification) : Notification :=
  {| n_id := n_id n; n_type := n_type n; n_status := n_status n;
     n_recipient := n_recipient n; n_subject := n_subject n;
     n_content := n_content n; n_templateId := n_templateId n;
     n_templateData := n_templateData n; n_metadata := n_metadata n;
     n_scheduledAt := n_scheduledAt n; n_sentAt := n_sentAt n;
     n_deliveredAt := n_deliveredAt n; n_failedAt := n_failedAt n;
     n_failureReason := n_failureReason n; n_retryCount := v;
     n_maxRetries := n_maxRetries n; n_createdAt := n_createdAt n;
     n_updatedAt := n_updatedAt n |}.

Definition n_set_stamps (created updated : option Date) (n : Notification) : Notification :=
  {| n_id := n_id n; n_type := n_type n; n_status := n_status n;
     n_recipient := n_recipient n; n_subject := n_subject n;
     n_content := n_content n; n_templateId := n_templateId n;
     n_templateData := n_templateData n; n_metadata := n_metadata n;
     n_scheduledAt := n_scheduledAt n; n_sentAt := n_sentAt n;
     n_deliveredAt := n_deliveredAt n; n_failedAt := n_failedAt n;
     n_failureReason := n_failureReason n; n_retryCount := n_retryCount n;
     n_maxRetries := n_maxRetries n; n_createdAt := created;
     n_updatedAt := updated |}.

Definition n_set_updatedAt (v : option Date) (n : Notification) : Notification :=
  n_set_stamps (n_createdAt n) v n.

(** [canRetry(): boolean] *)
Definition canRetry (n : Notification) : bool :=
  bool_decide (n_status n = FAILED) && (n_retryCount n <? n_maxRetries n).

(** [markAsSent(): void], run at time [now]. *)
Definition markAsSent (now : Date) (n : Notification) : Notification :=
  n_set_updatedAt (Some now) (n_set_sentAt (Some now) (n_set_status SENT n)).

(** [markAsDelivered(): void] *)
Definition markAsDelivered (now : Date) (n : Notification) : Notification :=
  n_set_updatedAt (Some now) (n_set_deliveredAt (Some now) (n_set_status DELIVERED n)).

(** [markAsFailed(reason: string): void] *)
Definition markAsFailed (now : Date) (reason : string) (n : Notification) : Notification :=
  n_set_updatedAt (Some now)
    (n_set_retryCount (S (n_retryCount n))
       (n_set_failed (Some now) (Some reason) (n_set_status FAILED n))).

(** The result of [EmailProvider.sendEmail]. *)
Record SendResult := {
  sr_success : bool;
  sr_messageId : option string;
  sr_error : option string }.

(** ** UserDomain.ts *)

(** [interface User]; the roles and the profile play no part in
    membership and are left out. *)
Record User := {
  u_id : option string;
  u_clerkId : string;
  u_name : string;
  u_email : string }.

(** ** WorkspaceDomain.ts *)

Inductive WorkspaceRole := OWNER | ADMIN | EDITOR | VIEWER.
Inductive WorkspacePlan := FREE | PRO | ENTERPRISE.
Inductive WorkspaceStatus := ACTIVE | SUSPENDED | INACTIVE.
Inductive ProjectVisibility := PUBLIC | PRIVATE.

#[global] Instance WorkspaceRole_eq_dec : EqDecision WorkspaceRole.
Proof. solve_decision. Defined.
#[global] Instance ProjectVisibility_eq_dec : EqDecision ProjectVisibility.
Proof. solve_decision. Defined.

Record WorkspaceMember := {
  wm_userId : string;
  wm_role : WorkspaceRole;
  wm_invitedBy : option string;
  wm_joinedAt : Date;
  wm_invitedAt : option Date }.

Record WorkspaceInvite := {
  wi_id : string;
  wi_email : string;
  wi_role : WorkspaceRole;
  wi_invitedByClerkId : string;
  wi_token : string;
  wi_expiresAt : Date;
  wi_createdAt : Date;
  wi_accepted : option bool;
  wi_acceptedAt : option Date;
  wi_acceptedByClerkId : option string }.

Record WorkspaceSettings := {
  ws_allowPublicProjects : bool;
  ws_defaultProjectVisibility : ProjectVisibility;
  ws_customDomain : option string;
  ws_subdomain : option string }.

(** [interface WorkspaceData] *)
Record WorkspaceData := {
  wd_id : option string;
  wd_name : string;
  wd_slug : string;
  wd_description : option string;
  wd_logo : option string;
  wd_ownerId : string;
  wd_plan : WorkspacePlan;
  wd_status : WorkspaceStatus;
  wd_members : option (list WorkspaceMember);
  wd_invites : option (list WorkspaceInvite);
  wd_settings : option WorkspaceSettings;
  wd_createdAt : option Date;
  wd_updatedAt : option Date }.

(** [class Workspace] *)
Record Workspace := {
  w_id : option string;
  w_name : string;
  w_slug : string;
  w_description : option string;
  w_logo : option string;
  w_ownerId : string;
  w_plan : WorkspacePlan;
  w_status : WorkspaceStatus;
  w_members : list WorkspaceMember;
  w_invites : list WorkspaceInvite;
  w_settings : WorkspaceSettings;
  w_createdAt : option Date;
  w_updatedAt : option Date }.

(** [constructor(data: WorkspaceData)] *)
Definition Workspace_new (data : WorkspaceData) : Workspace :=
  {| w_id := wd_id data;
     w_name := wd_name data;
     w_slug := wd_slug data;
     w_description := wd_description data;
     w_logo := wd_logo data;
     w_ownerId := wd_ownerId data;
     w_plan := wd_plan data;
     w_status := wd_status data;
     w_members := default [] (wd_members data);
     w_invites := default [] (wd_invites data);
     w_settings := default {| ws_allowPublicProjects := true;
                              ws_defaultProjectVisibility := PRIVATE;
                              ws_customDomain := None;
                              ws_subdomain := None |} (wd_settings data);
     w_createdAt := wd_createdAt data;
     w_updatedAt := wd_updatedAt data |}.

(** [workspace.members = v] *)
Definition w_set_members (v : list WorkspaceMember) (w : Workspace) : Workspace :=
  {| w_id := w_id w; w_name := w_name w; w_slug := w_slug w;
     w_description := w_description w; w_logo := w_logo w;
     w_ownerId := w_ownerId w; w_plan := w_plan w; w_status := w_status w;
     w_members := v; w_invites := w_invites w; w_settings := w_settings w;
     w_createdAt := w_createdAt w; w_updatedAt := w_updatedAt w |}.

(** [workspace.invites = v] *)
Definition w_set_invites (v : list WorkspaceInvite) (w : Workspace) : Workspace :=
  {| w_id := w_id w; w_name := w_name w; w_slug := w_slug w;
     w_description := w_description w; w_logo := w_logo w;
     w_ownerId := w_ownerId w; w_plan := w_plan w; w_status := w_status w;
     w_members := w_members w; w_invites := v; w_settings := w_settings w;
     w_createdAt := w_createdAt w; w_updatedAt := w_updatedAt w |}.

(** [{ ...workspace, id, createdAt, updatedAt }] *)
Definition w_set_id_stamps (id : option string) (created updated : option Date)
    (w : Workspace) : Workspace :=
  {| w_id := id; w_name := w_name w; w_slug := w_slug w;
     w_description := w_description w; w_logo := w_logo w;
     w_ownerId := w_ownerId w; w_plan := w_plan w; w_status := w_status w;
     w_members := w_members w; w_invites := w_invites w;
     w_settings := w_settings w;
     w_createdAt := created; w_updatedAt := updated |}.

(** [isOwner(userId)] *)
Definition isOwner (w : Workspace) (userId : string) : bool :=
  String.eqb (w_ownerId w) userId.

(** [getMemberRole(userId)] *)
Definition getMemberRole (w : Workspace) (userId : string) : option WorkspaceRole :=
  if isOwner w userId then Some OWNER
  else wm_role <$> List.find (fun m => String.eqb (wm_userId m) userId) (w_members w).

(** [canInviteMembers(userId)] *)
Definition canInviteMembers (w : Workspace) (userId : string) : bool :=
  isOwner w userId || bool_decide (getMemberRole w userId = Some ADMIN).

(** [canDeleteMembers(userId)] *)
Definition canDeleteMembers (w : Workspace) (userId : string) : bool :=
  isOwner w userId || bool_decide (getMemberRole w userId = Some ADMIN).

(** [invite.accepted] read as a condition: [undefined] is falsy. *)
Definition accepted_truthy (i : WorkspaceInvite) : bool :=
  match wi_accepted i with Some true => true | _ => false end.

(** [Partial<Workspace>]: the fields a caller passes to
    [WorkspaceRepository.update]. *)
Record WorkspacePatch := {
  wp_name : option string;
  wp_description : option string;
  wp_slug : option string;
  wp_plan : option WorkspacePlan;
  wp_status : option WorkspaceStatus;
  wp_members : option (list WorkspaceMember);
  wp_invites : option (list WorkspaceInvite);
  wp_updatedAt : option Date }.

Definition WorkspacePatch_empty : WorkspacePatch :=
  {| wp_name := None; wp_description := None; wp_slug := None;
     wp_plan := None; wp_status := None; wp_members := None;
     wp_invites := None; wp_updatedAt := None |}.

(** ** ProjectDomain.ts *)

Inductive ProjectStatus := DRAFT | PUBLISHED | ARCHIVED.

(** Deployments and settings are carried through every operation below
    unchanged; only the fields that identify them are kept. *)
Record ProjectDeployment := {
  pd_id : string;
  pd_url : string;
  pd_deployedAt : Date }.

Record ProjectSettings := {
  ps_seoTitle : option string;
  ps_seoDescription : option string;
  ps_customCSS : option string;
  ps_customJS : option string }.

Definition ProjectSettings_empty : ProjectSettings :=
  {| ps_seoTitle := None; ps_seoDescription := None;
     ps_customCSS := None; ps_customJS := None |}.

Record ProjectMember := {
  pm_userId : string;
  pm_role : WorkspaceRole;
  pm_addedAt : Date;
  pm_addedBy : string }.

(** [interface ProjectData] *)
Record ProjectData := {
  pjd_id : option string;
  pjd_name : string;
  pjd_slug : string;
  pjd_description : option string;
  pjd_thumbnail : option string;
  pjd_workspaceId : string;
  pjd_createdBy : string;
  pjd_status : ProjectStatus;
  pjd_visibility : ProjectVisibility;
  pjd_members : option (list ProjectMember);
  pjd_deployments : option (list ProjectDeployment);
  pjd_settings : option ProjectSettings;
  pjd_createdAt : option Date;
  pjd_updatedAt : option Date;
  pjd_publishedAt : option Date }.

(** [class Project]: [members] is optional, set only under PRIVATE. *)
Record Project := {
  p_id : option string;
  p_name : string;
  p_slug : string;
  p_description : option string;
  p_thumbnail : option string;
  p_workspaceId : string;
  p_createdBy : string;
  p_status : ProjectStatus;
  p_visibility : ProjectVisibility;
  p_members : option (list ProjectMember);
  p_deployments : list ProjectDeployment;
  p_settings : ProjectSettings;
  p_createdAt : option Date;
  p_updatedAt : option Date;
  p_publishedAt : option Date }.

(** [constructor(data: ProjectData)] *)
Definition Project_new (data : ProjectData) : Project :=
  {| p_id := pjd_id data;
     p_name := pjd_name data;
     p_slug := pjd_slug data;
     p_description := pjd_description data;
     p_thumbnail := pjd_thumbnail data;
     p_workspaceId := pjd_workspaceId data;
     p_createdBy := pjd_createdBy data;
     p_status := pjd_status data;
     p_visibility := pjd_visibility data;
     (* Only set members for PRIVATE projects *)
     p_members :=
       match pjd_visibility data with
       | PRIVATE => Some (default [] (pjd_members data))
       | PUBLIC => None
       end;
     p_deployments := default [] (pjd_deployments data);
     p_settings := default ProjectSettings_empty (pjd_settings data);
     p_createdAt := pjd_createdAt data;
     p_updatedAt := pjd_updatedAt data;
     p_publishedAt := pjd_publishedAt data |}.

(** [this.members = v] *)
Definition p_set_members (v : option (list ProjectMember)) (p : Project) : Project :=
  {| p_id := p_id p; p_name := p_name p; p_slug := p_slug p;
     p_description := p_description p; p_thumbnail := p_thumbnail p;
     p_workspaceId := p_workspaceId p; p_createdBy := p_createdBy p;
     p_status := p_status p; p_visibility := p_visibility p;
     p_members := v; p_deployments := p_deployments p;
     p_settings := p_settings p; p_createdAt := p_createdAt p;
     p_updatedAt := p_updatedAt p; p_publishedAt := p_publishedAt p |}.

(** [isPrivate()] *)
Definition isPrivate (p : Project) : bool :=
  bool_decide (p_visibility p = PRIVATE).

(** [hasMember(userId)] *)
Definition hasMember (p : Project) (userId : string) : bool :=
  match p_members p with
  | Some ms =>
      if isPrivate p
      then existsb (fun member => String.eqb (pm_userId member) userId) ms
      else false
  | None => false
  end.

(** [Partial<Project>]: the fields the service passes to
    [ProjectRepository.update]. *)
Record ProjectPatch := {
  pp_name : option string;
  pp_description : option (option string);
  pp_visibility : option ProjectVisibility;
  pp_slug : option string;
  pp_members : option (list ProjectMember);
  pp_updatedAt : option Date }.

Definition ProjectPatch_empty : ProjectPatch :=
  {| pp_name := None; pp_description := None; pp_visibility := None;
     pp_slug := None; pp_members := None; pp_updatedAt := None |}.

(** ** The stored documents (adapters/mongodb/repositories) *)

(** [interface MongoNotification], without its [_id], which is the key. *)
Record MongoNotification := {
  mn_type : NotificationType;
  mn_status : NotificationStatus;
  mn_recipient : option string;
  mn_subject : option string;
  mn_content : string;
  mn_templateId : option EmailTemplate;
  mn_templateData : option (gmap string string);
  mn_metadata : option Metadata;
  mn_scheduledAt : option Date;
  mn_sentAt : option Date;
  mn_deliveredAt : option Date;
  mn_failedAt : option Date;
  mn_failureReason : option string;
  mn_retryCount : nat;
  mn_maxRetries : nat;
  mn_createdAt : option Date;
  mn_updatedAt : option Date }.

(** [interface MongoWorkspace]; a stored member or invite has the fields
    of the domain one, with the ids as plain strings. *)
Record MongoWorkspace := {
  mw_name : string;
  mw_slug : string;
  mw_description : option string;
  mw_logo : option string;
  mw_ownerId : string;
  mw_plan : WorkspacePlan;
  mw_status : WorkspaceStatus;
  mw_members : list WorkspaceMember;
  mw_invites : list WorkspaceInvite;
  mw_settings : WorkspaceSettings;
  mw_createdAt : option Date;
  mw_updatedAt : option Date }.

(** [interface MongoProject]: [members] may be absent. *)
Record MongoProject := {
  mp_name : string;
  mp_slug : string;
  mp_description : option string;
  mp_thumbnail : option string;
  mp_workspaceId : string;
  mp_createdBy : string;
  mp_status : ProjectStatus;
  mp_visibility : ProjectVisibility;
  mp_members : option (list ProjectMember);
  mp_deployments : list ProjectDeployment;
  mp_settings : ProjectSettings;
  mp_createdAt : option Date;
  mp_updatedAt : option Date;
  mp_publishedAt : option Date }.

(** [interface MongoUser] *)
Record MongoUser := {
  mu_clerkId : string;
  mu_name : string;
  mu_email : string }.

(** ** The world the services run in *)

(** The four collections, the clock, and what the environment decides:
    which storage round trips fail ([faults], one flag per round trip,
    none left meaning no failure), which ObjectIds the driver generates
    ([oidGen], read at [oidNext]) and which strings [Math.random] spells
    ([rng], read at [rngNext]). *)
Record World := {
  workspaces : gmap string MongoWorkspace;
  projects : gmap string MongoProject;
  notifications : gmap string MongoNotification;
  users : gmap string MongoUser;
  clock : Date;
  faults : list bool;
  oidGen : nat -> string;
  oidNext : nat;
  rng : nat -> string;
  rngNext : nat }.

Definition set_workspaces (v : gmap string MongoWorkspace) (w : World) : World :=
  {| workspaces := v; projects := projects w; notifications := notifications w;
     users := users w; clock := clock w; faults := faults w;
     oidGen := oidGen w; oidNext := oidNext w; rng := rng w; rngNext := rngNext w |}.

Definition set_projects (v : gmap string MongoProject) (w : World) : World :=
  {| workspaces := workspaces w; projects := v; notifications := notifications w;
     users := users w; clock := clock w; faults := faults w;
     oidGen := oidGen w; oidNext := oidNext w; rng := rng w; rngNext := rngNext w |}.

Definition set_notifications (v : gmap string MongoNotification) (w : World) : World :=
  {| workspaces := workspaces w; projects := projects w; notifications := v;
     users := users w; clock := clock w; faults := faults w;
     oidGen := oidGen w; oidNext := oidNext w; rng := rng w; rngNext := rngNext w |}.

Definition set_users (v : gmap string MongoUser) (w : World) : World :=
  {| workspaces := workspaces w; projects := projects w;
     notifications := notifications w;
     users := v; clock := clock w; faults := faults w;
     oidGen := oidGen w; oidNext := oidNext w; rng := rng w; rngNext := rngNext w |}.

Definition set_faults (v : list bool) (w : World) : World :=
  {| workspaces := workspaces w; projects := projects w;
     notifications := notifications w;
     users := users w; clock := clock w; faults := v;
     oidGen := oidGen w; oidNext := oidNext w; rng := rng w; rngNext := rngNext w |}.

Definition set_oidNext (v : nat) (w : World) : World :=
  {| workspaces := workspaces w; projects := projects w;
     notifications := notifications w;
     users := users w; clock := clock w; faults := faults w;
     oidGen := oidGen w; oidNext := v; rng := rng w; rngNext := rngNext w |}.

Definition set_rngNext (v : nat) (w : World) : World :=
  {| workspaces := workspaces w; projects := projects w;
     notifications := notifications w;
     users := users w; clock := clock w; faults := faults w;
     oidGen := oidGen w; oidNext := oidNext w; rng := rng w; rngNext := v |}.

Definition set_clock (v : Date) (w : World) : World :=
  {| workspaces := workspaces w; projects := projects w;
     notifications := notifications w;
     users := users w; clock := v; faults := faults w;
     oidGen := oidGen w; oidNext := oidNext w; rng := rng w; rngNext := rngNext w |}.

(** ** Computations: state and exceptions *)

Inductive Outcome (A : Type) : Type :=
  | Return (a : A)
  | Throw (message : string).
Arguments Return {A} a.
Arguments Throw {A} message.

Definition M (A : Type) : Type := World -> Outcome A * World.

Definition ret {A} (a : A) : M A := fun w => (Return a, w).

Definition bind {A B} (m : M A) (k : A -> M B) : M B :=
  fun w =>
    match m w with
    | (Return a, w') => k a w'
    | (Throw e, w') => (Throw e, w')
    end.

(** [throw new Error(message)] *)
Definition throw {A} (message : string) : M A := fun w => (Throw message, w).

(** [try { body } catch (error) { handler(error.message) }] *)
Definition tryCatch {A} (body : M A) (handler : string -> M A) : M A :=
  fun w =>
    match body w with
    | (Return a, w') => (Return a, w')
    | (Throw e, w') => handler e w'
    end.

Definition gets {A} (f : World -> A) : M A := fun w => (Return (f w), w).
Definition modify (f : World -> World) : M unit := fun w => (Return tt, f w).

Notation "'let*' x ':=' c1 'in' c2" := (bind c1 (fun x => c2))
  (at level 10, x name, c1 at level 100, c2 at level 200,
   format "'[v' 'let*'  x  ':='  c1  'in' '/' c2 ']'").
Notation "'do' c1 'then' c2" := (bind c1 (fun _ => c2))
  (at level 10, c1 at level 100, c2 at level 200,
   format "'[v' 'do'  c1  'then' '/' c2 ']'").

(** A loop over a list: [for (const x of xs) { ... }] with an accumulator. *)
Fixpoint forEach {A S} (xs : list A) (body : A -> S -> M S) (s : S) : M S :=
  match xs with
  | [] => ret s
  | x :: rest => let* s' := body x s in forEach rest body s'
  end.

(** [xs.map(f)] where [f] may throw. *)
Fixpoint mapM {A B} (f : A -> M B) (xs : list A) : M (list B) :=
  match xs with
  | [] => ret []
  | x :: rest => let* y := f x in let* ys := mapM f rest in ret (y :: ys)
  end.

(** [new Date()] *)
Definition newDate : M Date := gets clock.

(** One round trip to the database: it fails when the environment says
    so. *)
Definition dbRoundTrip : M unit :=
  fun w =>
    match faults w with
    | [] => (Return tt, w)
    | false :: rest => (Return tt, set_faults rest w)
    | true :: rest => (Throw "MongoNetworkError", set_faults rest w)
    end.

(** The ObjectId the driver gives to the next inserted document. *)
Definition newObjectId : M string :=
  fun w => (Return (oidGen w (oidNext w)), set_oidNext (S (oidNext w)) w).

(** [new XId(value)]: the constructor of [BaseId]. *)
Definition BaseId_new (value : string) : M string :=
  if nonEmpty value then ret value else throw "ID value cannot be empty".

(** ** MongoNotificationRepository.ts *)

Module MongoNotificationRepository.

(** The document written for a notification object (every field but
    the id), with the given timestamps. *)
Definition toMongo (notification : Notification)
    (createdAt updatedAt : option Date) : MongoNotification :=
  {| mn_type := n_type notification;
     mn_status := n_status notification;
     mn_recipient := n_recipient notification;
     mn_subject := n_subject notification;
     mn_content := n_content notification;
     mn_templateId := n_templateId notification;
     mn_templateData := n_templateData notification;
     mn_metadata := n_metadata notification;
     mn_scheduledAt := n_scheduledAt notification;
     mn_sentAt := n_sentAt notification;
     mn_deliveredAt := n_deliveredAt notification;
     mn_failedAt := n_failedAt notification;
     mn_failureReason := n_failureReason notification;
     mn_retryCount := n_retryCount notification;
     mn_maxRetries := n_maxRetries notification;
     mn_createdAt := createdAt;
     mn_updatedAt := updatedAt |}.

(** [mapMongoToDomain(doc)], [id] being [doc._id.toString()]. *)
Definition mapMongoToDomain (id : string) (doc : MongoNotification) : M Notification :=
  let* nid := BaseId_new id in
  ret (Notification_new
         {| nd_id := Some nid;
            nd_type := mn_type doc;
            nd_status := mn_status doc;
            nd_recipient := mn_recipient doc;
            nd_subject := mn_subject doc;
            nd_content := mn_content doc;
            nd_templateId := mn_templateId doc;
            nd_templateData := mn_templateData doc;
            nd_metadata := mn_metadata doc;
            nd_scheduledAt := mn_scheduledAt doc;
            nd_sentAt := mn_sentAt doc;
            nd_deliveredAt := mn_deliveredAt doc;
            nd_failedAt := mn_failedAt doc;
            nd_failureReason := mn_failureReason doc;
            nd_retryCount := Some (mn_retryCount doc);
            nd_maxRetries := Some (mn_maxRetries doc);
            nd_createdAt := mn_createdAt doc;
            nd_updatedAt := mn_updatedAt doc |}).

(** [create(notification)]: [insertOne] under a new ObjectId. *)
Definition create (notification : Notification) : M Notification :=
  do dbRoundTrip then
  let* now := newDate in
  let createdAt := Some (default now (n_createdAt notification)) in
  let updatedAt := Some (default now (n_updatedAt notification)) in
  let mongoNotification := toMongo notification createdAt updatedAt in
  let* insertedId := newObjectId in
  let* docs := gets notifications in
  match docs !! insertedId with
  | Some _ => throw "E11000 duplicate key error"
  | None =>
      do modify (set_notifications (<[insertedId := mongoNotification]> docs)) then
      let* id := BaseId_new insertedId in
      ret (Notification_new
             (nd_set_id_stamps (Some id) createdAt updatedAt
                (Notification_spread notification)))
  end.

(** [findById(id)] *)
Definition findById (id : string) : M (option Notification) :=
  do dbRoundTrip then
  let* docs := gets notifications in
  match docs !! id with
  | Some doc => let* n := mapMongoToDomain id doc in ret (Some n)
  | None => ret None
  end.

(** [update(id, data)]: [findOneAndUpdate] with
    [$set: { ...data, updatedAt: now }] minus the id.  Every caller
    passes a whole notification object, so every stored field is set. *)
Definition update (id : string) (data : Notification) : M (option Notification) :=
  do dbRoundTrip then
  let* now := newDate in
  let* docs := gets notifications in
  match docs !! id with
  | Some _ =>
      let result := toMongo data (n_createdAt data) (Some now) in
      do modify (set_notifications (<[id := result]> docs)) then
      let* n := mapMongoToDomain id result in
      ret (Some n)
  | None => ret None
  end.

(** [save(notification)] *)
Definition save (notification : Notification) : M Notification :=
  match n_id notification with
  | Some id =>
      let* result := update id notification in
      ret (default notification result)
  | None => create notification
  end.

(** Ascending order on an optional date, a missing one first. *)
Definition failedAt_le (a b : option Date) : bool :=
  match a, b with
  | None, _ => true
  | Some _, None => false
  | Some x, Some y => (x <=? y)%Z
  end.

Fixpoint insertByFailedAt (x : string * MongoNotification)
    (l : list (string * MongoNotification)) : list (string * MongoNotification) :=
  match l with
  | [] => [x]
  | y :: rest =>
      if failedAt_le (mn_failedAt x.2) (mn_failedAt y.2)
      then x :: y :: rest
      else y :: insertByFailedAt x rest
  end.

Definition sortByFailedAt (l : list (string * MongoNotification))
    : list (string * MongoNotification) :=
  foldr insertByFailedAt [] l.

(** The filter of [findForRetry]:
    [status = FAILED] and [$expr: { $lt: ['$retryCount', '$maxRetries'] }]. *)
Definition retryFilter (doc : MongoNotification) : bool :=
  bool_decide (mn_status doc = FAILED) && (mn_retryCount doc <? mn_maxRetries doc).

(** [findForRetry(limit)] *)
Definition findForRetry (limit : nat) : M (list Notification) :=
  do dbRoundTrip then
  let* docs := gets notifications in
  let found :=
    take limit
      (sortByFailedAt (List.filter (fun kv => retryFilter kv.2) (map_to_list docs))) in
  mapM (fun kv => mapMongoToDomain kv.1 kv.2) found.

End MongoNotificationRepository.

(** ** NotificationService.ts *)

Record SendEmailResult := {
  ser_success : bool;
  ser_notificationId : option string;
  ser_error : option string }.

Record ResendResult := {
  rr_success : bool;
  rr_error : option string }.

Record BatchResult := {
  br_processed : nat;
  br_successful : nat;
  br_failed : nat }.

(** [{ ...metadata, messageId, resentAt }] on a possibly missing
    metadata object. *)
Definition md_with_message (messageId : option string) (resentAt : option (option Date))
    (md : option Metadata) : Metadata :=
  {| md_recipients := md ≫= md_recipients;
     md_cc := md ≫= md_cc;
     md_bcc := md ≫= md_bcc;
     md_attachments := md ≫= md_attachments;
     md_emailData := md ≫= md_emailData;
     md_messageId := messageId;
     md_resentAt := default (md ≫= md_resentAt) resentAt |}.

Module NotificationService.
Section WithProvider.

(** [private readonly emailProvider: EmailProvider] *)
Variable emailProvider : EmailData -> M SendResult.

Import MongoNotificationRepository.

(** [notification.id!] passed to the repository *)
Definition update_bang (id : option string) (n : Notification) : M (option Notification) :=
  match id with
  | Some i => update i n
  | None => throw "Cannot read properties of undefined (reading 'getValue')"
  end.

(** [sendEmail(emailData)] *)
Definition sendEmail (emailData : EmailData) : M SendEmailResult :=
  tryCatch
    (let* now := newDate in
     (* Create notification record *)
     let notification :=
       Notification_new
         {| nd_id := None;
            nd_type := EMAIL;
            nd_status := PENDING;
            nd_recipient := head (ed_to emailData);
            nd_subject := Some (ed_subject emailData);
            nd_content :=
              match ed_template emailData with
              | Some t => "Template: " +:+ EmailTemplate_toString t
              | None => "Custom content"
              end;
            nd_templateId := ed_template emailData;
            nd_templateData := Some (ed_templateData emailData);
            nd_metadata :=
              Some {| md_recipients := Some (ed_to emailData);
                      md_cc := ed_cc emailData;
                      md_bcc := ed_bcc emailData;
                      md_attachments :=
                        Some (from_option length 0 (ed_attachments emailData));
                      md_emailData := None;
                      md_messageId := None;
                      md_resentAt := None |};
            nd_scheduledAt := None;
            nd_sentAt := None;
            nd_deliveredAt := None;
            nd_failedAt := None;
            nd_failureReason := None;
            nd_retryCount := None;
            nd_maxRetries := None;
            nd_createdAt := Some now;
            nd_updatedAt := Some now |} in
     (* Save to database *)
     let* savedNotification := save notification in
     (* Send email *)
     let* sendResult := emailProvider emailData in
     if sr_success sendResult then
       (* Mark as sent *)
       let* now := newDate in
       let savedNotification := markAsSent now savedNotification in
       let savedNotification :=
         n_set_metadata
           (Some (md_with_message (sr_messageId sendResult) None
                    (n_metadata savedNotification)))
           savedNotification in
       do update_bang (n_id savedNotification) savedNotification then
       ret {| ser_success := true;
              ser_notificationId := n_id savedNotification;
              ser_error := None |}
     else
       (* Mark as failed *)
       let* now := newDate in
       let savedNotification :=
         markAsFailed now (orString (sr_error sendResult) "Unknown error")
           savedNotification in
       do update_bang (n_id savedNotification) savedNotification then
       ret {| ser_success := false;
              ser_notificationId := n_id savedNotification;
              ser_error := sr_error sendResult |})
    (fun message =>
       ret {| ser_success := false;
              ser_notificationId := None;
              ser_error := Some message |}).

(** [resendNotification(notificationId)] *)
Definition resendNotification (notificationId : string) : M ResendResult :=
  tryCatch
    (let* found := findById notificationId in
     match found with
     | None =>
         ret {| rr_success := false; rr_error := Some "Notification not found" |}
     | Some notification =>
         if bool_decide (n_type notification ≠ EMAIL) then
           ret {| rr_success := false;
                  rr_error := Some "Only email notifications can be resent" |}
         else
           (* Reconstruct email data from notification *)
           let emailData :=
             {| ed_to :=
                  match n_metadata notification ≫= md_recipients with
                  | Some recipients => recipients
                  | None => option_list (n_recipient notification)
                  end;
                ed_cc := n_metadata notification ≫= md_cc;
                ed_bcc := n_metadata notification ≫= md_bcc;
                ed_subject := orString (n_subject notification) "";
                ed_template := n_templateId notification;
                ed_templateData := default ∅ (n_templateData notification);
                ed_attachments := None |} in
           (* Reset status and increment retry count *)
           let* now := newDate in
           let notification := n_set_status PENDING notification in
           let notification :=
             n_set_retryCount (S (n_retryCount notification)) notification in
           let notification := n_set_updatedAt (Some now) notification in
           do update notificationId notification then
           (* Resend email *)
           let* sendResult := emailProvider emailData in
           if sr_success sendResult then
             let* now := newDate in
             let notification := markAsSent now notification in
             let notification :=
               n_set_metadata
                 (Some (md_with_message (sr_messageId sendResult) (Some (Some now))
                          (n_metadata notification)))
                 notification in
             do update notificationId notification then
             ret {| rr_success := true; rr_error := None |}
           else
             let* now := newDate in
             let notification :=
               markAsFailed now (orString (sr_error sendResult) "Resend failed")
                 notification in
             do update notificationId notification then
             ret {| rr_success := false; rr_error := sr_error sendResult |}
     end)
    (fun message => ret {| rr_success := false; rr_error := Some message |}).

(** [processRetries()] *)
Definition processRetries : M BatchResult :=
  tryCatch
    (let* failedNotifications := findForRetry 50 in
     let* counts :=
       forEach failedNotifications
         (fun notification counts =>
            if negb (canRetry notification) then ret counts
            else
              tryCatch
                (match n_id notification with
                 | Some id =>
                     let* result := resendNotification id in
                     if rr_success result
                     then ret (S counts.1, counts.2)
                     else ret (counts.1, S counts.2)
                 | None => ret (counts.1, S counts.2)
                 end)
                (fun _ => ret (counts.1, S counts.2)))
         (0, 0) in
     ret {| br_processed := length failedNotifications;
            br_successful := counts.1;
            br_failed := counts.2 |})
    (fun _ => ret {| br_processed := 0; br_successful := 0; br_failed := 0 |}).

End WithProvider.
End NotificationService.

(** ** Array helpers *)

(** [xs.findIndex(f)], [None] standing for [-1]. *)
Fixpoint findIndex {A} (f : A -> bool) (xs : list A) : option nat :=
  match xs with
  | [] => None
  | x :: rest => if f x then Some 0 else S <$> findIndex f rest
  end.

(** [collection.findOne({ field: value })]: some document that passes
    the filter, if there is one. *)
Definition findOneBy {D} (filter : D -> bool) (docs : gmap string D)
    : option (string * D) :=
  List.find (fun kv => filter kv.2) (map_to_list docs).

(** [s ? s : undefined] and the like: an optional string read as a
    condition is true when it is present and not empty. *)
Definition truthy (s : option string) : option string :=
  match s with
  | Some v => if nonEmpty v then Some v else None
  | None => None
  end.

(** ** MongoUserRepository.ts and UserService.ts *)

Module MongoUserRepository.

Definition mapMongoToDomain (id : string) (doc : MongoUser) : M User :=
  let* uid := BaseId_new id in
  ret {| u_id := Some uid;
         u_clerkId := mu_clerkId doc;
         u_name := mu_name doc;
         u_email := mu_email doc |}.

Definition findBy (filter : MongoUser -> bool) : M (option User) :=
  do dbRoundTrip then
  let* docs := gets users in
  match findOneBy filter docs with
  | Some kv => let* u := mapMongoToDomain kv.1 kv.2 in ret (Some u)
  | None => ret None
  end.

(** [findByEmail(email)] *)
Definition findByEmail (email : string) : M (option User) :=
  findBy (fun doc => String.eqb (mu_email doc) email).

(** [findByClerkId(clerkId)] *)
Definition findByClerkId (clerkId : string) : M (option User) :=
  findBy (fun doc => String.eqb (mu_clerkId doc) clerkId).

End MongoUserRepository.

(** The character class [\s], on the ASCII range. *)
Definition isSpace (c : ascii) : bool :=
  let n := nat_of_ascii c in
  (n =? 32) || ((9 <=? n) && (n <=? 13)).

Definition isAt (c : ascii) : bool := (nat_of_ascii c =? 64).
Definition isDot (c : ascii) : bool := (nat_of_ascii c =? 46).

(** The characters up to the first [@], and those after it. *)
Fixpoint splitAtSign (cs : list ascii) : option (list ascii * list ascii) :=
  match cs with
  | [] => None
  | c :: rest =>
      if isAt c then Some ([], rest)
      else match splitAtSign rest with
           | Some (l, r) => Some (c :: l, r)
           | None => None
           end
  end.

(** [/^[^\s@]+@[^\s@]+\.[^\s@]+$/.test(email)]: no blank, one [@] with
    something before it, and after it a dot that is neither the first nor
    the last character. *)
Definition emailRegex_test (email : string) : bool :=
  let cs := String.list_ascii_of_string email in
  forallb (fun c => negb (isSpace c)) cs &&
  match splitAtSign cs with
  | Some (l, r) =>
      negb (bool_decide (l = [])) &&
      forallb (fun c => negb (isAt c)) r &&
      match r with
      | [] => false
      | _ :: r' => existsb isDot (removelast r')
      end
  | None => false
  end.

Module UserService.

(** [isValidEmail(email)] *)
Definition isValidEmail (email : string) : bool := emailRegex_test email.

(** [findByEmail(email)] *)
Definition findByEmail (email : string) : M (option User) :=
  if negb (isValidEmail email) then throw "Invalid email format"
  else MongoUserRepository.findByEmail email.

(** [findByClerkId(clerkId)] *)
Definition findByClerkId (clerkId : string) : M (option User) :=
  if negb (nonEmpty clerkId) then throw "Clerk ID is required"
  else MongoUserRepository.findByClerkId clerkId.

End UserService.

(** ** MongoWorkspaceRepository.ts *)

Module MongoWorkspaceRepository.

(** A stored member read back as a domain member. *)
Definition mapMember (member : WorkspaceMember) : M WorkspaceMember :=
  let* userId := BaseId_new (wm_userId member) in
  ret {| wm_userId := userId;
         wm_role := wm_role member;
         wm_invitedBy := truthy (wm_invitedBy member);
         wm_joinedAt := wm_joinedAt member;
         wm_invitedAt := wm_invitedAt member |}.

(** [mapMongoToDomain(doc)], [id] being [doc._id.toString()]. *)
Definition mapMongoToDomain (id : string) (doc : MongoWorkspace) : M Workspace :=
  let* wid := BaseId_new id in
  let* ownerId := BaseId_new (mw_ownerId doc) in
  let* members := mapM mapMember (mw_members doc) in
  ret (Workspace_new
         {| wd_id := Some wid;
            wd_name := mw_name doc;
            wd_slug := mw_slug doc;
            wd_description := mw_description doc;
            wd_logo := mw_logo doc;
            wd_ownerId := ownerId;
            wd_plan := mw_plan doc;
            wd_status := mw_status doc;
            wd_members := Some members;
            wd_invites := Some (mw_invites doc);
            wd_settings := Some (mw_settings doc);
            wd_createdAt := mw_createdAt doc;
            wd_updatedAt := mw_updatedAt doc |}).

(** [findById(id)] *)
Definition findById (id : string) : M (option Workspace) :=
  do dbRoundTrip then
  let* docs := gets workspaces in
  match docs !! id with
  | Some doc => let* ws := mapMongoToDomain id doc in ret (Some ws)
  | None => ret None
  end.

(** [findBySlug(slug)] *)
Definition findBySlug (slug : string) : M (option Workspace) :=
  do dbRoundTrip then
  let* docs := gets workspaces in
  match findOneBy (fun doc => String.eqb (mw_slug doc) slug) docs with
  | Some kv => let* ws := mapMongoToDomain kv.1 kv.2 in ret (Some ws)
  | None => ret None
  end.

(** [create(workspace)] *)
Definition create (workspace : Workspace) : M Workspace :=
  let* now := newDate in
  let createdAt := Some (default now (w_createdAt workspace)) in
  let updatedAt := Some (default now (w_updatedAt workspace)) in
  let mongoWorkspace :=
    {| mw_name := w_name workspace;
       mw_slug := w_slug workspace;
       mw_description := w_description workspace;
       mw_logo := w_logo workspace;
       mw_ownerId := w_ownerId workspace;
       mw_plan := w_plan workspace;
       mw_status := w_status workspace;
       mw_members := w_members workspace;
       mw_invites := w_invites workspace;
       mw_settings := w_settings workspace;
       mw_createdAt := createdAt;
       mw_updatedAt := updatedAt |} in
  do dbRoundTrip then
  let* insertedId := newObjectId in
  let* docs := gets workspaces in
  match docs !! insertedId with
  | Some _ => throw "E11000 duplicate key error"
  | None =>
      do modify (set_workspaces (<[insertedId := mongoWorkspace]> docs)) then
      let* id := BaseId_new insertedId in
      ret (w_set_id_stamps (Some id) createdAt updatedAt workspace)
  end.

(** [$set: { ...workspace, updatedAt: now }] applied to a document. *)
Definition applyPatch (patch : WorkspacePatch) (now : Date) (doc : MongoWorkspace)
    : MongoWorkspace :=
  {| mw_name := default (mw_name doc) (wp_name patch);
     mw_slug := default (mw_slug doc) (wp_slug patch);
     mw_description :=
       match wp_description patch with
       | Some d => Some d
       | None => mw_description doc
       end;
     mw_logo := mw_logo doc;
     mw_ownerId := mw_ownerId doc;
     mw_plan := default (mw_plan doc) (wp_plan patch);
     mw_status := default (mw_status doc) (wp_status patch);
     mw_members := default (mw_members doc) (wp_members patch);
     mw_invites := default (mw_invites doc) (wp_invites patch);
     mw_settings := mw_settings doc;
     mw_createdAt := mw_createdAt doc;
     mw_updatedAt := Some now |}.

(** [update(id, workspace)]: [findOneAndUpdate] returning the document
    after the update, [null] when no document has this id. *)
Definition update (id : string) (patch : WorkspacePatch) : M (option Workspace) :=
  let* now := newDate in
  do dbRoundTrip then
  let* docs := gets workspaces in
  match docs !! id with
  | Some doc =>
      let result := applyPatch patch now doc in
      do modify (set_workspaces (<[id := result]> docs)) then
      let* ws := mapMongoToDomain id result in
      ret (Some ws)
  | None => ret None
  end.

(** [save(workspace)]: the services only save workspaces that have no
    id yet; one that has an id is updated with the fields a patch
    carries. *)
Definition save (workspace : Workspace) : M Workspace :=
  match w_id workspace with
  | Some id =>
      let* result :=
        update id {| wp_name := Some (w_name workspace);
                     wp_description := w_description workspace;
                     wp_slug := Some (w_slug workspace);
                     wp_plan := Some (w_plan workspace);
                     wp_status := Some (w_status workspace);
                     wp_members := Some (w_members workspace);
                     wp_invites := Some (w_invites workspace);
                     wp_updatedAt := w_updatedAt workspace |} in
      ret (default workspace result)
  | None => create workspace
  end.

End MongoWorkspaceRepository.

(** ** WorkspaceService.ts *)

Record CreateWorkspaceData := {
  cw_name : string;
  cw_description : option string;
  cw_slug : string;
  cw_ownerId : string }.

Module WorkspaceService.

Import MongoWorkspaceRepository.

(** [createWorkspace(data)] *)
Definition createWorkspace (data : CreateWorkspaceData) : M Workspace :=
  (* Check if slug is already taken *)
  let* existingSlug := findBySlug (cw_slug data) in
  match existingSlug with
  | Some _ => throw "Este slug já está em uso"
  | None =>
      let* ownerId := BaseId_new (cw_ownerId data) in
      let* now := newDate in
      let workspaceData :=
        {| wd_id := None;
           wd_name := cw_name data;
           wd_slug := cw_slug data;
           wd_description := Some (orString (cw_description data) "");
           wd_logo := None;
           wd_ownerId := ownerId;
           wd_plan := FREE;
           wd_status := ACTIVE;
           wd_members := None;
           wd_invites := None;
           wd_settings := None;
           wd_createdAt := Some now;
           wd_updatedAt := Some now |} in
      let workspace := Workspace_new workspaceData in
      let* savedWorkspace := save workspace in
      (* Add the creator as the first member (OWNER) in the workspace
         members array *)
      match w_id savedWorkspace with
      | Some id =>
          let* ownerUserId := BaseId_new (cw_ownerId data) in
          let* joinedAt := newDate in
          let ownerMember :=
            {| wm_userId := ownerUserId;
               wm_role := OWNER;
               wm_invitedBy := None;
               wm_joinedAt := joinedAt;
               wm_invitedAt := None |} in
          let savedWorkspace :=
            w_set_members (w_members savedWorkspace ++ [ownerMember]) savedWorkspace in
          let* now := newDate in
          do update id
               {| wp_name := None; wp_description := None; wp_slug := None;
                  wp_plan := None; wp_status := None;
                  wp_members := Some (w_members savedWorkspace);
                  wp_invites := None;
                  wp_updatedAt := Some now |} then
          ret savedWorkspace
      | None => ret savedWorkspace
      end
  end.

(** [findById(id)] *)
Definition findById (id : string) : M (option Workspace) :=
  MongoWorkspaceRepository.findById id.

(** [validateUserAccess(workspaceId, clerkId)] *)
Definition validateUserAccess (workspaceId clerkId : string) : M bool :=
  let* wid := BaseId_new workspaceId in
  let* workspace := MongoWorkspaceRepository.findById wid in
  match workspace with
  | None => ret false
  | Some workspace =>
      let isOwner := String.eqb (w_ownerId workspace) clerkId in
      let isMember :=
        existsb (fun m => String.eqb (wm_userId m) clerkId) (w_members workspace) in
      ret (isOwner || isMember)
  end.

(** The patch [{ members, updatedAt: new Date() }]. *)
Definition membersPatch (members : list WorkspaceMember) (now : Date) : WorkspacePatch :=
  {| wp_name := None; wp_description := None; wp_slug := None;
     wp_plan := None; wp_status := None;
     wp_members := Some members; wp_invites := None;
     wp_updatedAt := Some now |}.

(** [addMember(workspaceId, userId, role, invitedBy?)] *)
Definition addMember (workspaceId userId : string) (role : WorkspaceRole)
    (invitedBy : option string) : M (option Workspace) :=
  let* workspace := MongoWorkspaceRepository.findById workspaceId in
  match workspace with
  | None => throw "Workspace não encontrado"
  | Some workspace =>
      (* Check if member already exists *)
      match List.find (fun m => String.eqb (wm_userId m) userId) (w_members workspace) with
      | Some _ => throw "Usuário já é membro deste workspace"
      | None =>
          let* now := newDate in
          let newMember :=
            {| wm_userId := userId;
               wm_role := role;
               wm_invitedBy := invitedBy;
               wm_joinedAt := now;
               wm_invitedAt := match invitedBy with Some _ => Some now | None => None end |} in
          let members := w_members workspace ++ [newMember] in
          let* now := newDate in
          update workspaceId (membersPatch members now)
      end
  end.

(** [removeMember(workspaceId, userId)] *)
Definition removeMember (workspaceId userId : string) : M (option Workspace) :=
  let* workspace := MongoWorkspaceRepository.findById workspaceId in
  match workspace with
  | None => throw "Workspace não encontrado"
  | Some workspace =>
      (* Don't allow removing the owner *)
      if String.eqb (w_ownerId workspace) userId then
        throw "Não é possível remover o proprietário do workspace"
      else
        let members :=
          List.filter (fun m => negb (String.eqb (wm_userId m) userId))
            (w_members workspace) in
        let* now := newDate in
        update workspaceId (membersPatch members now)
  end.

(** [workspace.members[memberIndex].role = role] *)
Definition setRole (role : WorkspaceRole) (m : WorkspaceMember) : WorkspaceMember :=
  {| wm_userId := wm_userId m; wm_role := role; wm_invitedBy := wm_invitedBy m;
     wm_joinedAt := wm_joinedAt m; wm_invitedAt := wm_invitedAt m |}.

(** [updateMemberRole(workspaceId, userId, role)] *)
Definition updateMemberRole (workspaceId userId : string) (role : WorkspaceRole)
    : M (option Workspace) :=
  let* workspace := MongoWorkspaceRepository.findById workspaceId in
  match workspace with
  | None => throw "Workspace não encontrado"
  | Some workspace =>
      (* Don't allow changing owner role *)
      if String.eqb (w_ownerId workspace) userId then
        throw "Não é possível alterar o papel do proprietário"
      else
        match findIndex (fun m => String.eqb (wm_userId m) userId) (w_members workspace) with
        | None => throw "Membro não encontrado"
        | Some memberIndex =>
            let members := alter (setRole role) memberIndex (w_members workspace) in
            let* now := newDate in
            update workspaceId (membersPatch members now)
        end
  end.

(** [updateInvites(workspaceId, invites)] *)
Definition updateInvites (workspaceId : string) (invites : list WorkspaceInvite)
    : M (option Workspace) :=
  let* now := newDate in
  update workspaceId
    {| wp_name := None; wp_description := None; wp_slug := None;
       wp_plan := None; wp_status := None;
       wp_members := None; wp_invites := Some invites;
       wp_updatedAt := Some now |}.

(** [addMemberByClerkId(workspaceId, clerkId, role, invitedByClerkId?)] *)
Definition addMemberByClerkId (workspaceId clerkId : string) (role : WorkspaceRole)
    (invitedByClerkId : option string) : M (option Workspace) :=
  let* workspace := MongoWorkspaceRepository.findById workspaceId in
  match workspace with
  | None => throw "Workspace não encontrado"
  | Some workspace =>
      (* Check if member already exists by comparing Clerk IDs *)
      match List.find (fun m => String.eqb (wm_userId m) clerkId) (w_members workspace) with
      | Some _ => throw "Usuário já é membro deste workspace"
      | None =>
          (* Create UserId from Clerk ID *)
          let* userId := BaseId_new clerkId in
          let invitedByUserId := truthy invitedByClerkId in
          let* now := newDate in
          let newMember :=
            {| wm_userId := userId;
               wm_role := role;
               wm_invitedBy := invitedByUserId;
               wm_joinedAt := now;
               wm_invitedAt :=
                 match invitedByUserId with Some _ => Some now | None => None end |} in
          let members := w_members workspace ++ [newMember] in
          let* now := newDate in
          update workspaceId (membersPatch members now)
      end
  end.

End WorkspaceService.

(** ** MongoProjectRepository.ts *)

Module MongoProjectRepository.

(** A stored member read back as a domain member. *)
Definition mapMember (member : ProjectMember) : M ProjectMember :=
  let* userId := BaseId_new (pm_userId member) in
  let* addedBy := BaseId_new (pm_addedBy member) in
  ret {| pm_userId := userId;
         pm_role := pm_role member;
         pm_addedAt := pm_addedAt member;
         pm_addedBy := addedBy |}.

(** [mapMongoToDomain(doc)], [id] being [doc._id.toString()]. *)
Definition mapMongoToDomain (id : string) (doc : MongoProject) : M Project :=
  let* pid := BaseId_new id in
  let* workspaceId := BaseId_new (mp_workspaceId doc) in
  let* createdBy := BaseId_new (mp_createdBy doc) in
  (* Map members only if they exist *)
  let* members :=
    match mp_members doc with
    | Some ms => let* l := mapM mapMember ms in ret (Some l)
    | None => ret None
    end in
  ret (Project_new
         {| pjd_id := Some pid;
            pjd_name := mp_name doc;
            pjd_slug := mp_slug doc;
            pjd_description := mp_description doc;
            pjd_thumbnail := mp_thumbnail doc;
            pjd_workspaceId := workspaceId;
            pjd_createdBy := createdBy;
            pjd_status := mp_status doc;
            pjd_visibility := mp_visibility doc;
            pjd_members := members;
            pjd_deployments := Some (mp_deployments doc);
            pjd_settings := Some (mp_settings doc);
            pjd_createdAt := mp_createdAt doc;
            pjd_updatedAt := mp_updatedAt doc;
            pjd_publishedAt := mp_publishedAt doc |}).

(** [findAll()] *)
Definition findAll : M (list Project) :=
  do dbRoundTrip then
  let* docs := gets projects in
  mapM (fun kv => mapMongoToDomain kv.1 kv.2) (map_to_list docs).

(** [findById(id)] *)
Definition findById (id : string) : M (option Project) :=
  do dbRoundTrip then
  let* docs := gets projects in
  match docs !! id with
  | Some doc => let* p := mapMongoToDomain id doc in ret (Some p)
  | None => ret None
  end.

(** [save(project)]: always an [insertOne]; [members] is written only
    when the project object has it. *)
Definition save (project : Project) : M Project :=
  do dbRoundTrip then
  let* now := newDate in
  let createdAt := Some (default now (p_createdAt project)) in
  let updatedAt := Some (default now (p_updatedAt project)) in
  let mongoProject :=
    {| mp_name := p_name project;
       mp_slug := p_slug project;
       mp_description := p_description project;
       mp_thumbnail := p_thumbnail project;
       mp_workspaceId := p_workspaceId project;
       mp_createdBy := p_createdBy project;
       mp_status := p_status project;
       mp_visibility := p_visibility project;
       mp_members := p_members project;
       mp_deployments := p_deployments project;
       mp_settings := p_settings project;
       mp_createdAt := createdAt;
       mp_updatedAt := updatedAt;
       mp_publishedAt := p_publishedAt project |} in
  let* insertedId := newObjectId in
  let* docs := gets projects in
  match docs !! insertedId with
  | Some _ => throw "E11000 duplicate key error"
  | None =>
      do modify (set_projects (<[insertedId := mongoProject]> docs)) then
      let* id := BaseId_new insertedId in
      ret (Project_new
             {| pjd_id := Some id;
                pjd_name := p_name project;
                pjd_slug := p_slug project;
                pjd_description := p_description project;
                pjd_thumbnail := p_thumbnail project;
                pjd_workspaceId := p_workspaceId project;
                pjd_createdBy := p_createdBy project;
                pjd_status := p_status project;
                pjd_visibility := p_visibility project;
                pjd_members := p_members project;
                pjd_deployments := Some (p_deployments project);
                pjd_settings := Some (p_settings project);
                pjd_createdAt := createdAt;
                pjd_updatedAt := updatedAt;
                pjd_publishedAt := p_publishedAt project |})
  end.

(** [$set: { ...project, updatedAt: now }] applied to a document: a
    field the patch does not carry keeps its stored value. *)
Definition applyPatch (patch : ProjectPatch) (now : Date) (doc : MongoProject)
    : MongoProject :=
  {| mp_name := default (mp_name doc) (pp_name patch);
     mp_slug := default (mp_slug doc) (pp_slug patch);
     mp_description := default (mp_description doc) (pp_description patch);
     mp_thumbnail := mp_thumbnail doc;
     mp_workspaceId := mp_workspaceId doc;
     mp_createdBy := mp_createdBy doc;
     mp_status := mp_status doc;
     mp_visibility := default (mp_visibility doc) (pp_visibility patch);
     mp_members :=
       match pp_members patch with
       | Some ms => Some ms
       | None => mp_members doc
       end;
     mp_deployments := mp_deployments doc;
     mp_settings := mp_settings doc;
     mp_createdAt := mp_createdAt doc;
     mp_updatedAt := Some now;
     mp_publishedAt := mp_publishedAt doc |}.

(** [update(id, project)] *)
Definition update (id : string) (patch : ProjectPatch) : M (option Project) :=
  do dbRoundTrip then
  let* now := newDate in
  let* docs := gets projects in
  match docs !! id with
  | Some doc =>
      let result := applyPatch patch now doc in
      do modify (set_projects (<[id := result]> docs)) then
      let* p := mapMongoToDomain id result in
      ret (Some p)
  | None => ret None
  end.

End MongoProjectRepository.

(** ** ProjectService.ts *)

Inductive ErrorCode :=
  | NOT_FOUND | ACCESS_DENIED | SLUG_EXISTS | VALIDATION_ERROR | INTERNAL_ERROR.

(** [interface ProjectServiceResult<T>] *)
Record ProjectServiceResult (T : Type) := {
  psr_success : bool;
  psr_data : option T;
  psr_error : option (ErrorCode * string) }.
Arguments psr_success {T} _.
Arguments psr_data {T} _.
Arguments psr_error {T} _.

Definition succeed {T} (data : T) : ProjectServiceResult T :=
  {| psr_success := true; psr_data := Some data; psr_error := None |}.

Definition failWith {T} (code : ErrorCode) (message : string) : ProjectServiceResult T :=
  {| psr_success := false; psr_data := None; psr_error := Some (code, message) |}.

(** [interface UpdateProjectData]; the SEO fields are never read by the
    service. *)
Record UpdateProjectData := {
  up_name : option string;
  up_description : option string;
  up_visibility : option ProjectVisibility;
  up_slug : option string }.

Fixpoint dropSpaces (cs : list ascii) : list ascii :=
  match cs with
  | [] => []
  | c :: rest => if isSpace c then dropSpaces rest else c :: rest
  end.

(** [s.trim()], on the ASCII range. *)
Definition trim (s : string) : string :=
  String.string_of_list_ascii
    (rev (dropSpaces (rev (dropSpaces (String.list_ascii_of_string s))))).

Module ProjectService.

Import MongoProjectRepository.

(** [isSlugAvailable(slug, excludeProjectId?)] *)
Definition isSlugAvailable (slug : string) (excludeProjectId : option string) : M bool :=
  tryCatch
    (let* allProjects := findAll in
     match List.find (fun p => String.eqb (p_slug p) slug) allProjects with
     | None => ret true
     | Some existingProject =>
         match truthy excludeProjectId, p_id existingProject with
         | Some ex, Some id => ret (String.eqb id ex)
         | _, _ => ret false
         end
     end)
    (fun _ => ret false).

(** [updateProject(projectId, userId, data)] *)
Definition updateProject (projectId userId : string) (data : UpdateProjectData)
    : M (ProjectServiceResult Project) :=
  tryCatch
    (* Buscar projeto existente *)
    (let* pid := BaseId_new projectId in
     let* existingProject := findById pid in
     match existingProject with
     | None => ret (failWith NOT_FOUND "Projeto não encontrado")
     | Some existingProject =>
         (* Verificar acesso *)
         if negb (String.eqb (p_createdBy existingProject) userId) then
           ret (failWith ACCESS_DENIED "Você não tem permissão para editar este projeto")
         else
           (* Validar slug se foi alterado *)
           let* slugOk :=
             match truthy (up_slug data) with
             | Some slug =>
                 if negb (String.eqb slug (p_slug existingProject))
                 then isSlugAvailable slug (Some projectId)
                 else ret true
             | None => ret true
             end in
           if negb slugOk then
             ret (failWith SLUG_EXISTS "Já existe um projeto com este slug")
           else
             (* Preparar dados para atualização *)
             if match up_name data with
                | Some name => negb (nonEmpty (trim name))
                | None => false
                end
             then ret (failWith VALIDATION_ERROR "Nome do projeto é obrigatório")
             else
                 let* now := newDate in
                 let updateData :=
                   {| pp_name := trim <$> up_name data;
                      pp_description :=
                        (fun d => truthy (Some (trim d))) <$> up_description data;
                      pp_visibility := up_visibility data;
                      pp_slug := truthy (up_slug data);
                      pp_members := None;
                      pp_updatedAt := Some now |} in
                 (* Salvar alterações *)
                 let* pid := BaseId_new projectId in
                 let* updatedProject := update pid updateData in
                 match updatedProject with
                 | None => ret (failWith INTERNAL_ERROR "Erro ao atualizar projeto")
                 | Some updatedProject => ret (succeed updatedProject)
                 end
     end)
    (fun _ => ret (failWith INTERNAL_ERROR "Erro interno do servidor")).

(** [getEffectiveMembers(projectId)] *)
Definition getEffectiveMembers (projectId : string)
    : M (ProjectServiceResult (list ProjectMember)) :=
  tryCatch
    (let* pid := BaseId_new projectId in
     let* project := findById pid in
     match project with
     | None => ret (failWith NOT_FOUND "Projeto não encontrado")
     | Some project =>
         let* members :=
           if bool_decide (p_visibility project = PRIVATE) then
             (* For private projects, return stored members *)
             ret (default [] (p_members project))
           else
             (* For public projects, inherit all workspace members
                dynamically *)
             let* workspace := WorkspaceService.findById (p_workspaceId project) in
             match workspace with
             | Some workspace =>
                 (* Convert workspace members to project members format *)
                 let members :=
                   map (fun workspaceMember =>
                          {| pm_userId := wm_userId workspaceMember;
                             pm_role := wm_role workspaceMember;
                             pm_addedAt := wm_joinedAt workspaceMember;
                             pm_addedBy := w_ownerId workspace |})
                       (w_members workspace) in
                 (* Add workspace owner if not already in members *)
                 match List.find
                         (fun m => String.eqb (pm_userId m) (w_ownerId workspace))
                         members with
                 | Some _ => ret members
                 | None =>
                     let* now := newDate in
                     ret ({| pm_userId := w_ownerId workspace;
                             pm_role := OWNER;
                             pm_addedAt := default now (w_createdAt workspace);
                             pm_addedBy := w_ownerId workspace |} :: members)
                 end
             | None => ret []
             end in
         ret (succeed members)
     end)
    (fun _ => ret (failWith INTERNAL_ERROR "Erro interno do servidor")).

(** [Project.addMember(userId, role, addedBy)] followed by the save of
    [addMemberToProject(projectId, userId, role, addedBy)]. *)
Definition addMemberToProject (projectId userId : string) (role : WorkspaceRole)
    (addedBy : string) : M (ProjectServiceResult Project) :=
  tryCatch
    (let* pid := BaseId_new projectId in
     let* project := findById pid in
     match project with
     | None => ret (failWith NOT_FOUND "Projeto não encontrado")
     | Some project =>
         if bool_decide (p_visibility project = PUBLIC) then
           ret (failWith VALIDATION_ERROR
                  "Não é possível adicionar membros específicos a projetos públicos. Todos os membros do workspace têm acesso automaticamente.")
         else
           (* Add member using domain method *)
           let* memberId := BaseId_new userId in
           let* adder := BaseId_new addedBy in
           let project := p_set_members (Some (default [] (p_members project))) project in
           if hasMember project memberId then
             throw "User is already a member of this project"
           else
             let* now := newDate in
             let members :=
               default [] (p_members project) ++
               [{| pm_userId := memberId; pm_role := role;
                   pm_addedAt := now; pm_addedBy := adder |}] in
             (* Save updated project *)
             let* pid := BaseId_new projectId in
             let* now := newDate in
             let* updatedProject :=
               update pid {| pp_name := None; pp_description := None;
                             pp_visibility := None; pp_slug := None;
                             pp_members := Some members;
                             pp_updatedAt := Some now |} in
             match updatedProject with
             | None => ret (failWith INTERNAL_ERROR "Erro ao adicionar membro ao projeto")
             | Some updatedProject => ret (succeed updatedProject)
             end
     end)
    (fun message =>
       (* error.message.includes('already a member') *)
       if bool_decide (is_Some (String.index 0 "already a member" message))
       then ret (failWith VALIDATION_ERROR "Usuário já é membro deste projeto")
       else ret (failWith INTERNAL_ERROR "Erro interno do servidor")).

End ProjectService.

(** ** The HTTP responses of the routes *)

(** The JSON bodies the two invitation routes answer with. *)
Inductive Body :=
  | ErrorBody (error : string)
  | AcceptedBody (message : string) (workspaceId workspaceName : string)
      (role : WorkspaceRole)
  | InviteResultsBody (success : list string) (failed : list (string * string)).

(** [NextResponse.json(body, { status })] *)
Record Response := {
  status : nat;
  body : Body }.

Definition json (body : Body) (status : nat) : Response :=
  {| status := status; body := body |}.

(** ** app/api/workspace/[workspaceId]/invite/accept/route.ts *)

Module AcceptRoute.

(** [{ ...invite, accepted: true, acceptedAt, acceptedByClerkId }] *)
Definition markAccepted (now : Date) (userId : string) (invite : WorkspaceInvite)
    : WorkspaceInvite :=
  {| wi_id := wi_id invite;
     wi_email := wi_email invite;
     wi_role := wi_role invite;
     wi_invitedByClerkId := wi_invitedByClerkId invite;
     wi_token := wi_token invite;
     wi_expiresAt := wi_expiresAt invite;
     wi_createdAt := wi_createdAt invite;
     wi_accepted := Some true;
     wi_acceptedAt := Some now;
     wi_acceptedByClerkId := Some userId |}.

(** The second half of the handler: the member is added, and then the
    invite is marked as accepted and saved. *)
Definition addThenMark (workspaceId userId token : string) (workspace : Workspace)
    (invite : WorkspaceInvite) : M Response :=
  tryCatch
    ((* Add user as member using Clerk ID directly *)
     let* wid := BaseId_new workspaceId in
     let* updatedWorkspace :=
       WorkspaceService.addMemberByClerkId wid userId (wi_role invite)
         (Some (wi_invitedByClerkId invite)) in
     match updatedWorkspace with
     | None => ret (json (ErrorBody "Erro ao adicionar membro") 500)
     | Some _ =>
         (* Now mark invite as accepted and save (only after member was
            added successfully) *)
         let* now := newDate in
         let updatedInvite := markAccepted now userId invite in
         (* Get fresh workspace data and update the specific invite *)
         let* wid := BaseId_new workspaceId in
         let* freshWorkspace := WorkspaceService.findById wid in
         match freshWorkspace with
         | None => ret (json (ErrorBody "Erro interno - workspace não encontrado") 500)
         | Some freshWorkspace =>
             do match findIndex (fun inv => String.eqb (wi_token inv) token)
                        (w_invites freshWorkspace) with
                | Some freshInviteIndex =>
                    let* wid := BaseId_new workspaceId in
                    do WorkspaceService.updateInvites wid
                         (<[freshInviteIndex := updatedInvite]> (w_invites freshWorkspace))
                    then ret tt
                | None => ret tt
                end then
             ret (json (AcceptedBody "Convite aceito com sucesso"
                          workspaceId (w_name workspace) (wi_role invite)) 200)
         end
     end)
    (fun message => ret (json (ErrorBody message) 500)).

(** [POST(request, context)]: [auth] is the Clerk id of the session,
    [workspaceId] the route parameter and [token] the body's field. *)
Definition POST (auth : option string) (workspaceId : string) (token : option string)
    : M Response :=
  tryCatch
    (match truthy auth with
     | None => ret (json (ErrorBody "Não autorizado") 401)
     | Some userId =>
     match truthy token with
     | None => ret (json (ErrorBody "Token é obrigatório") 400)
     | Some token =>
     (* Get user *)
     let* user := UserService.findByClerkId userId in
     match user ≫= (fun u => (fun id => (u, id)) <$> u_id u) with
     | None => ret (json (ErrorBody "Usuário não encontrado") 404)
     | Some (user, userInternalId) =>
     (* Get workspace *)
     let* wid := BaseId_new workspaceId in
     let* workspace := WorkspaceService.findById wid in
     match workspace with
     | None => ret (json (ErrorBody "Workspace não encontrado") 404)
     | Some workspace =>
     (* Find invite by token *)
     match List.find (fun inv => String.eqb (wi_token inv) token) (w_invites workspace) with
     | None => ret (json (ErrorBody "Convite não encontrado") 404)
     | Some invite =>
     (* Validate invite *)
     if accepted_truthy invite then
       ret (json (ErrorBody "Convite já foi aceito") 400)
     else
     let* now := newDate in
     if (wi_expiresAt invite <? now)%Z then
       ret (json (ErrorBody "Convite expirado") 400)
     else
     (* Check if user email matches invite email *)
     if negb (String.eqb (u_email user) (wi_email invite)) then
       ret (json (ErrorBody "Email do usuário não confere com o convite") 400)
     else
     (* Check if user is already a member using Clerk ID *)
     let isMember :=
       existsb (fun m => String.eqb (wm_userId m) userId) (w_members workspace)
       || String.eqb (w_ownerId workspace) userInternalId in
     if isMember then
       ret (json (ErrorBody "Usuário já é membro deste workspace") 400)
     else
       addThenMark workspaceId userId token workspace invite
     end end end end end)
    (fun message => ret (json (ErrorBody message) 400)).

End AcceptRoute.

(** ** app/api/workspace/[workspaceId]/members/invite-multiple/route.ts *)

(** [expiresAt.setDate(expiresAt.getDate() + n)], on a server whose local
    days all have 24 hours. *)
Definition addDays (d : Date) (n : Z) : Date := (d + n * 86400000)%Z.

(** [lib/workspace-validation.ts] *)
Definition validateWorkspaceAccess (workspaceId userId : string) : M bool :=
  tryCatch (WorkspaceService.validateUserAccess workspaceId userId)
           (fun _ => ret false).

(** The local variables of the handler that the loop updates:
    [results.success], [results.failed] and [invitesToCreate]. *)
Record InviteLoop := {
  il_success : list string;
  il_failed : list (string * string);
  il_invitesToCreate : list WorkspaceInvite }.

Definition il_fail (email error : string) (st : InviteLoop) : InviteLoop :=
  {| il_success := il_success st;
     il_failed := il_failed st ++ [(email, error)];
     il_invitesToCreate := il_invitesToCreate st |}.

Definition il_succeed (email : string) (st : InviteLoop) : InviteLoop :=
  {| il_success := il_success st ++ [email];
     il_failed := il_failed st;
     il_invitesToCreate := il_invitesToCreate st |}.

Definition il_push (invite : WorkspaceInvite) (st : InviteLoop) : InviteLoop :=
  {| il_success := il_success st;
     il_failed := il_failed st;
     il_invitesToCreate := il_invitesToCreate st ++ [invite] |}.

Module InviteRoute.
Section WithProvider.

Variable emailProvider : EmailData -> M SendResult.
(** [process.env.NEXT_PUBLIC_APP_URL] *)
Variable NEXT_PUBLIC_APP_URL : string.

(** [generateInviteToken()]: 32 random characters in base 36, as the
    environment draws them. *)
Definition generateInviteToken : M string :=
  fun w => (Return (rng w (rngNext w)), set_rngNext (S (rngNext w)) w).

(** The member test of the loop, for the user found by e-mail. *)
Definition isMemberUser (workspace : Workspace) (existingUser : User) : bool :=
  match u_id existingUser with
  | Some id =>
      existsb (fun m => String.eqb (wm_userId m) id) (w_members workspace)
      || String.eqb (w_ownerId workspace) id
  | None => false
  end.

(** The test of a pending invite for an e-mail at time [now]. *)
Definition isPendingFor (email : string) (now : Date) (invite : WorkspaceInvite) : bool :=
  String.eqb (wi_email invite) email
  && negb (accepted_truthy invite)
  && (now <? wi_expiresAt invite)%Z.

(** What the checks at the head of the loop body decide. *)
Inductive Decision :=
  | AlreadyMember
  | PendingInvite
  | Create (invite : WorkspaceInvite).

(** The loop body up to [invitesToCreate.push(invite)]. *)
Definition decide_invite (userId : string) (role : WorkspaceRole)
    (workspace : Workspace) (email : string) : M Decision :=
  (* Check if user already exists and is already a member *)
  let* existingUser := UserService.findByEmail email in
  if from_option (isMemberUser workspace) false existingUser then ret AlreadyMember
  else
    (* Check if there's already a pending invite for this email *)
    let* now := newDate in
    match List.find (isPendingFor email now) (w_invites workspace) with
    | Some _ => ret PendingInvite
    | None =>
        (* Create invite for all users (existing or new) *)
        let* token := generateInviteToken in
        let* expiresAt := newDate in
        let expiresAt := addDays expiresAt 7 in
        let* id := generateInviteToken in
        let* createdAt := newDate in
        ret (Create {| wi_id := id;
                       wi_email := email;
                       wi_role := role;
                       wi_invitedByClerkId := userId;
                       wi_token := token;
                       wi_expiresAt := expiresAt;
                       wi_createdAt := createdAt;
                       wi_accepted := Some false;
                       wi_acceptedAt := None;
                       wi_acceptedByClerkId := None |})
    end.

(** The invitation e-mail of one invite. *)
Definition invitationEmail (workspaceId inviterName : string) (workspace : Workspace)
    (email token : string) : EmailData :=
  {| ed_to := [email];
     ed_cc := None;
     ed_bcc := None;
     ed_subject := "Convite para o workspace " +:+ w_name workspace;
     ed_template := Some WORKSPACE_INVITATION;
     ed_templateData :=
       {[ "inviterName" := inviterName;
          "workspaceName" := w_name workspace;
          "inviteUrl" :=
            NEXT_PUBLIC_APP_URL +:+ "/invite/workspace/" +:+ workspaceId
            +:+ "?token=" +:+ token;
          "recipientEmail" := email ]};
     ed_attachments := None |}.

(** One turn of [for (const email of validEmails)].  The [try] block
    changes the local variables only by the push, after the last
    statement of [decide_invite]; what is thrown before it is caught
    with the variables as they were, what is thrown after it with the
    invite pushed. *)
Definition processEmail (userId workspaceId inviterName : string)
    (role : WorkspaceRole) (workspace : Workspace)
    (email : string) (st : InviteLoop) : M InviteLoop :=
  tryCatch
    (let* decision := decide_invite userId role workspace email in
     match decision with
     | AlreadyMember => ret (il_fail email "Usuário já é membro deste workspace" st)
     | PendingInvite => ret (il_fail email "Convite pendente já existe para este email" st)
     | Create invite =>
         let st := il_push invite st in
         tryCatch
           ((* Send invitation email *)
            let* emailResult :=
              NotificationService.sendEmail emailProvider
                (invitationEmail workspaceId inviterName workspace email
                   (wi_token invite)) in
            if ser_success emailResult then ret (il_succeed email st)
            else ret (il_fail email
                        (orString (ser_error emailResult) "Falha ao enviar email") st))
           (fun message => ret (il_fail email message st))
     end)
    (fun message => ret (il_fail email message st)).

(** The [catch] of the final store: every invite whose e-mail was
    reported as a success is reported as a failure instead. *)
Definition markStoreFailed (invites : list WorkspaceInvite) (st : InviteLoop)
    : InviteLoop :=
  foldl
    (fun st invite =>
       if existsb (String.eqb (wi_email invite)) (il_success st) then
         {| il_success :=
              List.filter (fun email => negb (String.eqb email (wi_email invite)))
                (il_success st);
            il_failed := il_failed st ++ [(wi_email invite, "Falha ao salvar convite")];
            il_invitesToCreate := il_invitesToCreate st |}
       else st)
    st invites.

(** [POST(request, context)]: [emails] and [role] are the body's
    fields, [None] for a field that is missing or of the wrong shape. *)
Definition POST (auth : option string) (workspaceId : string)
    (emails : option (list string)) (role : option WorkspaceRole) : M Response :=
  tryCatch
    (match truthy auth with
     | None => ret (json (ErrorBody "Não autorizado") 401)
     | Some userId =>
     (* Validate workspace access *)
     let* hasAccess := validateWorkspaceAccess workspaceId userId in
     if negb hasAccess then
       ret (json (ErrorBody "Workspace not found or access denied") 403)
     else
     match emails with
     | None | Some [] => ret (json (ErrorBody "Lista de emails é obrigatória") 400)
     | Some emails =>
     match role with
     | None => ret (json (ErrorBody "Função é obrigatória e deve ser válida") 400)
     | Some role =>
     (* Validate emails *)
     let validEmails := List.filter emailRegex_test emails in
     let invalidEmails := List.filter (fun e => negb (emailRegex_test e)) emails in
     match invalidEmails with
     | _ :: _ =>
         ret (json (ErrorBody ("Emails inválidos: " +:+ String.concat ", " invalidEmails)) 400)
     | [] =>
     (* Get workspace and user info *)
     let* wid := BaseId_new workspaceId in
     let* workspace := WorkspaceService.findById wid in
     match workspace with
     | None => ret (json (ErrorBody "Workspace não encontrado") 404)
     | Some workspace =>
     let* inviter := UserService.findByClerkId userId in
     let inviterName := orString (u_name <$> inviter) "Membro da equipe" in
     (* Process each email *)
     let* st :=
       forEach validEmails
         (processEmail userId workspaceId inviterName role workspace)
         {| il_success := []; il_failed := []; il_invitesToCreate := [] |} in
     (* Store all invites (both for existing and new users) *)
     let* st :=
       match il_invitesToCreate st with
       | [] => ret st
       | invitesToCreate =>
           tryCatch
             (let* wid := BaseId_new workspaceId in
              do WorkspaceService.updateInvites wid
                   (w_invites workspace ++ invitesToCreate) then
              ret st)
             (fun _ => ret (markStoreFailed invitesToCreate st))
       end in
     ret (json (InviteResultsBody (il_success st) (il_failed st)) 200)
     end end end end end)
    (fun message => ret (json (ErrorBody message) 400)).

End WithProvider.
End InviteRoute.

(** ** Vocabulary of the properties *)

(** The notification object that [mapMongoToDomain] builds from a stored
    document whose id is well formed. *)
Definition notificationOf (id : string) (doc : MongoNotification) : Notification :=
  Notification_new
    {| nd_id := Some id;
       nd_type := mn_type doc;
       nd_status := mn_status doc;
       nd_recipient := mn_recipient doc;
       nd_subject := mn_subject doc;
       nd_content := mn_content doc;
       nd_templateId := mn_templateId doc;
       nd_templateData := mn_templateData doc;
       nd_metadata := mn_metadata doc;
       nd_scheduledAt := mn_scheduledAt doc;
       nd_sentAt := mn_sentAt doc;
       nd_deliveredAt := mn_deliveredAt doc;
       nd_failedAt := mn_failedAt doc;
       nd_failureReason := mn_failureReason doc;
       nd_retryCount := Some (mn_retryCount doc);
       nd_maxRetries := Some (mn_maxRetries doc);
       nd_createdAt := mn_createdAt doc;
       nd_updatedAt := mn_updatedAt doc |}.

(** A provider that answers [outcome] to every message and leaves the
    store alone. *)
Definition answers (provider : EmailData -> M SendResult) (outcome : SendResult) : Prop :=
  forall emailData w, provider emailData w = (Return outcome, w).

(** The provider that always answers [outcome]. *)
Definition constantProvider (outcome : SendResult) : EmailData -> M SendResult :=
  fun _ => ret outcome.

(** *** Worlds and messages for the examples *)

(** ObjectIds and random tokens as an environment may hand them out. *)
Definition demoOid (n : nat) : string := "65f0c0de" +:+ pretty n.
Definition demoToken (n : nat) : string := "tok" +:+ pretty n.

(** The empty database at time [1000]. *)
Definition emptyWorld : World :=
  {| workspaces := ∅; projects := ∅; notifications := ∅; users := ∅;
     clock := 1000%Z; faults := [];
     oidGen := demoOid; oidNext := 0; rng := demoToken; rngNext := 0 |}.

Definition welcomeMail : EmailData :=
  {| ed_to := ["a@x.com"]; ed_cc := None; ed_bcc := None;
     ed_subject := "Welcome"; ed_template := Some WELCOME;
     ed_templateData := ∅; ed_attachments := None |}.

Definition providerDown : SendResult :=
  {| sr_success := false; sr_messageId := None; sr_error := Some "provider down" |}.

Definition providerUp : SendResult :=
  {| sr_success := true; sr_messageId := Some "msg-1"; sr_error := None |}.

(** The stored retry counter and status of a notification. *)
Definition storedRetry (id : string) (w : World) : option (nat * nat * NotificationStatus) :=
  (fun doc => (mn_retryCount doc, mn_maxRetries doc, mn_status doc))
    <$> notifications w !! id.

(** Scenario E: a send that the provider fails, then three resends that
    it fails too. *)
Definition scenarioE : World :=
  let fail := constantProvider providerDown in
  let w1 := (NotificationService.sendEmail fail welcomeMail emptyWorld).2 in
  let w2 := (NotificationService.resendNotification fail (demoOid 0) w1).2 in
  let w3 := (NotificationService.resendNotification fail (demoOid 0) w2).2 in
  (NotificationService.resendNotification fail (demoOid 0) w3).2.

(** *** Workspaces *)

(** A stored member as the code writes it: a non-empty user id, and an
    inviter that is absent or non-empty. *)
Definition wfMember (m : WorkspaceMember) : bool :=
  nonEmpty (wm_userId m) && bool_decide (truthy (wm_invitedBy m) = wm_invitedBy m).

(** A stored workspace as the code writes it: the ids it holds are not
    empty (they all passed through [BaseId]'s constructor). *)
Definition wfWorkspaceDoc (id : string) (doc : MongoWorkspace) : bool :=
  nonEmpty id && nonEmpty (mw_ownerId doc) && forallb wfMember (mw_members doc).

(** The workspace object that [mapMongoToDomain] builds from a
    well-formed stored document. *)
Definition workspaceOf (id : string) (doc : MongoWorkspace) : Workspace :=
  Workspace_new
    {| wd_id := Some id;
       wd_name := mw_name doc;
       wd_slug := mw_slug doc;
       wd_description := mw_description doc;
       wd_logo := mw_logo doc;
       wd_ownerId := mw_ownerId doc;
       wd_plan := mw_plan doc;
       wd_status := mw_status doc;
       wd_members := Some (mw_members doc);
       wd_invites := Some (mw_invites doc);
       wd_settings := Some (mw_settings doc);
       wd_createdAt := mw_createdAt doc;
       wd_updatedAt := mw_updatedAt doc |}.

(** The stored document with new members, invites and [updatedAt], and
    every other field as it was. *)
Definition mw_with (members : list WorkspaceMember) (invites : list WorkspaceInvite)
    (updatedAt : option Date) (doc : MongoWorkspace) : MongoWorkspace :=
  {| mw_name := mw_name doc; mw_slug := mw_slug doc;
     mw_description := mw_description doc; mw_logo := mw_logo doc;
     mw_ownerId := mw_ownerId doc; mw_plan := mw_plan doc;
     mw_status := mw_status doc;
     mw_members := members; mw_invites := invites;
     mw_settings := mw_settings doc;
     mw_createdAt := mw_createdAt doc; mw_updatedAt := updatedAt |}.

(** The ids listed in a member roster. *)
Definition memberIds (members : list WorkspaceMember) : list string :=
  wm_userId <$> members.

(** Is this user id listed in the stored roster of the workspace? *)
Definition storedMember (workspaceId userId : string) (w : World) : bool :=
  match workspaces w !! workspaceId with
  | Some doc => existsb (fun m => String.eqb (wm_userId m) userId) (mw_members doc)
  | None => false
  end.


(** The member row that accepting an invite writes. *)
Definition invitedMember (userId : string) (invite : WorkspaceInvite) (now : Date)
    : WorkspaceMember :=
  {| wm_userId := userId;
     wm_role := wi_role invite;
     wm_invitedBy := truthy (Some (wi_invitedByClerkId invite));
     wm_joinedAt := now;
     wm_invitedAt :=
       match truthy (Some (wi_invitedByClerkId invite)) with
       | Some _ => Some now
       | None => None
       end |}.

(** The owner row that [createWorkspace] writes at time [now]. *)
Definition ownerRow (ownerId : string) (now : Date) : WorkspaceMember :=
  {| wm_userId := ownerId; wm_role := OWNER; wm_invitedBy := None;
     wm_joinedAt := now; wm_invitedAt := None |}.

(** A workspace "Team" created by the user with Clerk id [clerk_owner]
    in the empty database, seen one second later. *)
Definition teamData : CreateWorkspaceData :=
  {| cw_name := "Team"; cw_description := None; cw_slug := "team";
     cw_ownerId := "clerk_owner" |}.

Definition teamWorld : World :=
  set_clock 2000%Z (WorkspaceService.createWorkspace teamData emptyWorld).2.

Definition teamId : string := demoOid 0.

Definition teamDoc : MongoWorkspace :=
  {| mw_name := "Team"; mw_slug := "team"; mw_description := Some "";
     mw_logo := None; mw_ownerId := "clerk_owner"; mw_plan := FREE;
     mw_status := ACTIVE;
     mw_members := [ownerRow "clerk_owner" 1000%Z];
     mw_invites := [];
     mw_settings := {| ws_allowPublicProjects := true;
                       ws_defaultProjectVisibility := PRIVATE;
                       ws_customDomain := None; ws_subdomain := None |};
     mw_createdAt := Some 1000%Z; mw_updatedAt := Some 1000%Z |}.

(** *** Accepting an invite *)


(** The stored workspace after a member was added for [invite]. *)
Definition memberAdded (userId : string) (invite : WorkspaceInvite) (now : Date)
    (doc : MongoWorkspace) : MongoWorkspace :=
  mw_with (mw_members doc ++ [invitedMember userId invite now]) (mw_invites doc)
    (Some now) doc.





(** *** A team with an invited user *)

(** The users the identity provider has synchronised: the owner of the
    team and Ann, each with an internal id and a Clerk id. *)
Definition demoUsers : gmap string MongoUser :=
  {[ "u_owner" := {| mu_clerkId := "clerk_owner"; mu_name := "Olga";
                     mu_email := "olga@x.com" |};
     "u_ann" := {| mu_clerkId := "clerk_ann"; mu_name := "Ann";
                   mu_email := "ann@x.com" |} ]}.

Definition officeWorld : World := set_users demoUsers teamWorld.

(** The owner invites Ann as an editor; the e-mail goes out. *)
Definition inviteAnn (w : World) : Outcome Response * World :=
  InviteRoute.POST (constantProvider providerUp) "https://lmk.app"
    (Some "clerk_owner") teamId (Some ["ann@x.com"]) (Some EDITOR) w.

Definition invitedWorld : World := (inviteAnn officeWorld).2.

(** Ann accepts the invite, whose token is the first one drawn. *)
Definition annAccepts (w : World) : Outcome Response * World :=
  AcceptRoute.POST (Some "clerk_ann") teamId (Some (demoToken 0)) w.

Definition acceptedWorld : World := (annAccepts (set_clock 3000%Z invitedWorld)).2.





(** *** Projects *)

(** A stored project member as the code writes it. *)
Definition wfProjectMember (m : ProjectMember) : bool :=
  nonEmpty (pm_userId m) && nonEmpty (pm_addedBy m).

(** A stored roster as the code writes it. *)
Definition wfRoster (roster : option (list ProjectMember)) : bool :=
  forallb wfProjectMember (default [] roster).

(** A stored project as the code writes it: no id in it is empty. *)
Definition wfProjectDoc (id : string) (doc : MongoProject) : bool :=
  nonEmpty id && nonEmpty (mp_workspaceId doc) && nonEmpty (mp_createdBy doc)
  && wfRoster (mp_members doc).

(** The project object that [mapMongoToDomain] builds from a well-formed
    stored document. *)
Definition projectOf (id : string) (doc : MongoProject) : Project :=
  Project_new
    {| pjd_id := Some id;
       pjd_name := mp_name doc;
       pjd_slug := mp_slug doc;
       pjd_description := mp_description doc;
       pjd_thumbnail := mp_thumbnail doc;
       pjd_workspaceId := mp_workspaceId doc;
       pjd_createdBy := mp_createdBy doc;
       pjd_status := mp_status doc;
       pjd_visibility := mp_visibility doc;
       pjd_members := mp_members doc;
       pjd_deployments := Some (mp_deployments doc);
       pjd_settings := Some (mp_settings doc);
       pjd_createdAt := mp_createdAt doc;
       pjd_updatedAt := mp_updatedAt doc;
       pjd_publishedAt := mp_publishedAt doc |}.

(** The stored document with a new visibility, roster and [updatedAt],
    and every other field as it was. *)
Definition mp_with (visibility : ProjectVisibility)
    (members : option (list ProjectMember)) (updatedAt : option Date)
    (doc : MongoProject) : MongoProject :=
  {| mp_name := mp_name doc; mp_slug := mp_slug doc;
     mp_description := mp_description doc; mp_thumbnail := mp_thumbnail doc;
     mp_workspaceId := mp_workspaceId doc; mp_createdBy := mp_createdBy doc;
     mp_status := mp_status doc; mp_visibility := visibility;
     mp_members := members;
     mp_deployments := mp_deployments doc; mp_settings := mp_settings doc;
     mp_createdAt := mp_createdAt doc; mp_updatedAt := updatedAt;
     mp_publishedAt := mp_publishedAt doc |}.

(** The request that only changes the visibility. *)
Definition setVisibility (visibility : ProjectVisibility) : UpdateProjectData :=
  {| up_name := None; up_description := None;
     up_visibility := Some visibility; up_slug := None |}.




(** *** A project of the team *)

Definition bobRow : ProjectMember :=
  {| pm_userId := "clerk_bob"; pm_role := VIEWER; pm_addedAt := 6000;
     pm_addedBy := "clerk_owner" |}.

(** A private project "Site" of the team, created by the owner at time
    5000, to which Bob is added at time 6000. *)
Definition siteProject : Project :=
  Project_new
    {| pjd_id := None; pjd_name := "Site"; pjd_slug := "site";
       pjd_description := None; pjd_thumbnail := None;
       pjd_workspaceId := teamId; pjd_createdBy := "clerk_owner";
       pjd_status := DRAFT; pjd_visibility := PRIVATE;
       pjd_members := None; pjd_deployments := None; pjd_settings := None;
       pjd_createdAt := Some 5000%Z; pjd_updatedAt := Some 5000%Z;
       pjd_publishedAt := None |}.

Definition siteId : string := demoOid 2.

Definition siteWorld : World :=
  let w1 := (MongoProjectRepository.save siteProject (set_clock 5000 acceptedWorld)).2 in
  (ProjectService.addMemberToProject siteId "clerk_bob" VIEWER "clerk_owner"
     (set_clock 6000 w1)).2.

(** The site is made public at time 7000 and private again at 8000. *)
Definition sitePublic : World :=
  (ProjectService.updateProject siteId "clerk_owner" (setVisibility PUBLIC)
     (set_clock 7000 siteWorld)).2.

Definition sitePrivateAgain : World :=
  (ProjectService.updateProject siteId "clerk_owner" (setVisibility PRIVATE)
     (set_clock 8000 sitePublic)).2.

Definition siteDoc : MongoProject :=
  {| mp_name := "Site"; mp_slug := "site"; mp_description := None;
     mp_thumbnail := None; mp_workspaceId := teamId;
     mp_createdBy := "clerk_owner"; mp_status := DRAFT;
     mp_visibility := PRIVATE; mp_members := Some [bobRow];
     mp_deployments := []; mp_settings := ProjectSettings_empty;
     mp_createdAt := Some 5000%Z; mp_updatedAt := Some 6000%Z;
     mp_publishedAt := None |}.


(** The stored rosters of the projects are the same in both worlds. *)
Definition sameRosters (w w' : World) : Prop :=
  forall id, mp_members <$> projects w' !! id = mp_members <$> projects w !! id.

(** * Properties *)

(** ** Running computations *)

Lemma bind_Return {A B} (m : M A) (k : A -> M B) w a w' :
  m w = (Return a, w') -> bind m k w = k a w'.
Proof. intros H. unfold bind. by rewrite H. Qed.

Lemma bind_Throw {A B} (m : M A) (k : A -> M B) w e w' :
  m w = (Throw e, w') -> bind m k w = (Throw e, w').
Proof. intros H. unfold bind. by rewrite H. Qed.

Lemma tryCatch_Return {A} (m : M A) h w a w' :
  m w = (Return a, w') -> tryCatch m h w = (Return a, w').
Proof. intros H. unfold tryCatch. by rewrite H. Qed.

Lemma tryCatch_Throw {A} (m : M A) h w e w' :
  m w = (Throw e, w') -> tryCatch m h w = h e w'.
Proof. intros H. unfold tryCatch. by rewrite H. Qed.



(** Projections of an updated world. *)
Ltac world_simpl :=
  cbn [workspaces projects notifications users clock faults oidGen oidNext rng rngNext
       set_workspaces set_projects set_notifications set_users set_faults set_oidNext
       set_rngNext set_clock] in *.

Lemma dbRoundTrip_ok w : faults w = [] -> dbRoundTrip w = (Return tt, w).
Proof. intros H. unfold dbRoundTrip. by rewrite H. Qed.

Lemma BaseId_new_ok id w : nonEmpty id = true -> BaseId_new id w = (Return id, w).
Proof. intros H. unfold BaseId_new. by rewrite H. Qed.

Lemma mapM_ok {A B} (f : A -> M B) (g : A -> B) xs w :
  Forall (fun x => f x w = (Return (g x), w)) xs ->
  mapM f xs w = (Return (map g xs), w).
Proof.
  induction 1 as [|x xs Hx _ IH]; [done|].
  simpl. rewrite (bind_Return _ _ _ _ _ Hx), (bind_Return _ _ _ _ _ IH). done.
Qed.

(** ** Frames: what a computation leaves alone *)

(** [preserves R m]: from any world, [m] ends in a world related to it
    by [R], whether it returns or throws. *)
Definition preserves {A} (R : World -> World -> Prop) (m : M A) : Prop :=
  forall w, R w (m w).2.

Section Frames.
Context (R : World -> World -> Prop) `{!Reflexive R} `{!Transitive R}.

Lemma preserves_ret {A} (a : A) : preserves R (ret a).
Proof. intros w. simpl. reflexivity. Qed.

Lemma preserves_throw {A} e : preserves R (@throw A e).
Proof. intros w. simpl. reflexivity. Qed.

Lemma preserves_gets {A} (f : World -> A) : preserves R (gets f).
Proof. intros w. simpl. reflexivity. Qed.

Lemma preserves_bind {A B} (m : M A) (k : A -> M B) :
  preserves R m -> (forall a, preserves R (k a)) -> preserves R (bind m k).
Proof.
  intros Hm Hk w. unfold bind. specialize (Hm w).
  destruct (m w) as [[a|e] w']; simpl in *; [|done].
  etrans; [exact Hm | apply Hk].
Qed.

Lemma preserves_tryCatch {A} (m : M A) h :
  preserves R m -> (forall e, preserves R (h e)) -> preserves R (tryCatch m h).
Proof.
  intros Hm Hh w. unfold tryCatch. specialize (Hm w).
  destruct (m w) as [[a|e] w']; simpl in *; [done|].
  etrans; [exact Hm | apply Hh].
Qed.

Lemma preserves_BaseId_new v : preserves R (BaseId_new v).
Proof. unfold BaseId_new. destruct (nonEmpty v); [apply preserves_ret | apply preserves_throw]. Qed.

Lemma preserves_mapM {A B} (f : A -> M B) xs :
  (forall x, preserves R (f x)) -> preserves R (mapM f xs).
Proof.
  intros Hf. induction xs as [|x xs IH]; simpl; [apply preserves_ret|].
  apply preserves_bind; [done | intros y].
  apply preserves_bind; [done | intros ys]. apply preserves_ret.
Qed.

Lemma preserves_forEach {A S} (xs : list A) (body : A -> S -> M S) s :
  (forall x s, preserves R (body x s)) -> preserves R (forEach xs body s).
Proof.
  intros Hb. revert s. induction xs as [|x xs IH]; intros s; simpl;
    [apply preserves_ret|].
  apply preserves_bind; [done|]. intros s'. apply IH.
Qed.
End Frames.

(** ** The notification repository *)

Section NotificationRepositoryFacts.
Import MongoNotificationRepository.

Lemma notification_mapMongoToDomain_ok id doc w :
  nonEmpty id = true ->
  mapMongoToDomain id doc w = (Return (notificationOf id doc), w).
Proof.
  intros H. unfold mapMongoToDomain.
  by rewrite (bind_Return _ _ _ _ _ (BaseId_new_ok id w H)).
Qed.

Lemma notification_findById_ok id doc w :
  faults w = [] -> nonEmpty id = true -> notifications w !! id = Some doc ->
  findById id w = (Return (Some (notificationOf id doc)), w).
Proof.
  intros Hf Hid Hl. unfold findById.
  rewrite (bind_Return _ _ _ _ _ (dbRoundTrip_ok w Hf)).
  unfold gets, bind at 1. rewrite Hl.
  by rewrite (bind_Return _ _ _ _ _ (notification_mapMongoToDomain_ok id doc w Hid)).
Qed.

Lemma notification_update_ok id data w old :
  faults w = [] -> nonEmpty id = true -> notifications w !! id = Some old ->
  let result := toMongo data (n_createdAt data) (Some (clock w)) in
  update id data w =
    (Return (Some (notificationOf id result)),
     set_notifications (<[id := result]> (notifications w)) w).
Proof.
  intros Hf Hid Hl result. unfold update.
  rewrite (bind_Return _ _ _ _ _ (dbRoundTrip_ok w Hf)).
  unfold newDate, gets, modify, bind at 1 2. rewrite Hl.
  unfold bind at 1.
  by rewrite (bind_Return _ _ _ _ _ (notification_mapMongoToDomain_ok id _ _ Hid)).
Qed.

End NotificationRepositoryFacts.

(** ** NotificationService.sendEmail *)

Section SendEmailFacts.
Import MongoNotificationRepository NotificationService.


End SendEmailFacts.



(** ** NotificationService.resendNotification *)

Lemma markAsFailed_counts now reason n :
  n_retryCount (markAsFailed now reason n) = S (n_retryCount n).
Proof. reflexivity. Qed.

(** C10. A resend that the provider fails raises the stored [retryCount]
    by two: [resendNotification] increments it before the attempt and
    [markAsFailed] increments it again. *)
Theorem resend_failure_adds_two_retries
    (provider : EmailData -> M SendResult) (outcome : SendResult)
    (id : string) (doc : MongoNotification) (w : World) :
  answers provider outcome -> sr_success outcome = false ->
  faults w = [] -> nonEmpty id = true ->
  notifications w !! id = Some doc -> mn_type doc = EMAIL ->
  exists r w' doc',
    NotificationService.resendNotification provider id w = (Return r, w') /\
    rr_success r = false /\
    notifications w' !! id = Some doc' /\
    mn_status doc' = FAILED /\
    mn_retryCount doc' = mn_retryCount doc + 2.
Proof.
  intros Hp Hs Hf Hid Hdoc Hty.
  unfold NotificationService.resendNotification.
  eexists _, _, _. split.
  { apply tryCatch_Return.
    rewrite (bind_Return _ _ _ _ _ (notification_findById_ok id doc w Hf Hid Hdoc)).
    cbn [n_type notificationOf Notification_new nd_type]. rewrite Hty.
    rewrite bool_decide_eq_false_2 by (by intros []).
    unfold newDate, gets, bind at 1.
    unfold bind at 1.
    erewrite notification_update_ok; [|done|done|exact Hdoc].
    unfold bind at 1. rewrite Hp, Hs.
    unfold bind at 1. cbn [clock set_notifications].
    unfold bind at 1.
    erewrite notification_update_ok; [|done|done|by apply lookup_insert_eq].
    reflexivity. }
  split; [done|]. split; [by apply lookup_insert_eq|]. split; [done|].
  cbn. destruct (mn_retryCount doc); lia.
Qed.

Lemma resend_failure_adds_two_retries_witness :
  answers (constantProvider providerDown) providerDown /\
  storedRetry (demoOid 0) scenarioE = Some (7, 3, FAILED) /\
  exists r w',
    NotificationService.resendNotification (constantProvider providerDown)
      (demoOid 0) scenarioE = (Return r, w') /\
    storedRetry (demoOid 0) w' = Some (9, 3, FAILED).
Proof.
  assert (Ha : answers (constantProvider providerDown) providerDown) by done.
  split; [exact Ha|]. split; [vm_compute; reflexivity|].
  assert (Hdoc : exists doc, notifications scenarioE !! demoOid 0 = Some doc /\
                   mn_type doc = EMAIL /\ mn_retryCount doc = 7 /\ mn_maxRetries doc = 3).
  { vm_compute. eexists. split; [reflexivity|]. by repeat split. }
  destruct Hdoc as (doc & Hdoc & Hty & Hrc & Hmax).
  destruct (resend_failure_adds_two_retries _ _ (demoOid 0) doc scenarioE Ha)
    as (r & w' & doc' & Hrun & _ & Hdoc' & Hst & Hrc');
    [reflexivity | vm_compute; reflexivity | vm_compute; reflexivity | exact Hdoc | exact Hty |].
  exists r, w'. split; [exact Hrun|].
  unfold storedRetry. rewrite Hdoc'. simpl. rewrite Hst, Hrc', Hrc.
  revert Hrun Hdoc'. vm_compute. intros [= <- <-] [= <-]. reflexivity.
Defined.

(** [resendNotification] does not look at the retry limit: whatever the
    stored [retryCount] and [maxRetries], a resend that the provider
    delivers succeeds and stores the notification as [SENT]. *)
Lemma resend_ignores_limit
    (provider : EmailData -> M SendResult) (outcome : SendResult)
    (id : string) (doc : MongoNotification) (w : World) :
  answers provider outcome -> sr_success outcome = true ->
  faults w = [] -> nonEmpty id = true ->
  notifications w !! id = Some doc -> mn_type doc = EMAIL ->
  exists w' doc',
    NotificationService.resendNotification provider id w
      = (Return {| rr_success := true; rr_error := None |}, w') /\
    notifications w' !! id = Some doc' /\
    mn_status doc' = SENT /\
    mn_retryCount doc' = mn_retryCount doc + 1.
Proof.
  intros Hp Hs Hf Hid Hdoc Hty.
  unfold NotificationService.resendNotification.
  eexists _, _. split.
  { apply tryCatch_Return.
    rewrite (bind_Return _ _ _ _ _ (notification_findById_ok id doc w Hf Hid Hdoc)).
    cbn [n_type notificationOf Notification_new nd_type]. rewrite Hty.
    rewrite bool_decide_eq_false_2 by (by intros []).
    unfold newDate, gets, bind at 1.
    unfold bind at 1.
    erewrite notification_update_ok; [|done|done|exact Hdoc].
    unfold bind at 1. rewrite Hp, Hs.
    unfold bind at 1. cbn [clock set_notifications].
    unfold bind at 1.
    erewrite notification_update_ok; [|done|done|by apply lookup_insert_eq].
    reflexivity. }
  split; [by apply lookup_insert_eq|]. split; [done|].
  cbn. destruct (mn_retryCount doc); lia.
Qed.

(** C2 (the code at the failing input). After Scenario E the stored
    [retryCount] is 7 with [maxRetries] 3, and a fourth
    [resendNotification] is neither rejected nor a no-op: with a failing
    provider it reports the provider's error and stores [retryCount] 9;
    with a working provider it delivers and stores [SENT]. *)
Theorem resend_beyond_maxRetries :
  storedRetry (demoOid 0) scenarioE = Some (7, 3, FAILED) /\
  (let run := NotificationService.resendNotification (constantProvider providerDown)
                (demoOid 0) scenarioE in
   run.1 = Return {| rr_success := false; rr_error := Some "provider down" |} /\
   storedRetry (demoOid 0) run.2 = Some (9, 3, FAILED)) /\
  (let run := NotificationService.resendNotification (constantProvider providerUp)
                (demoOid 0) scenarioE in
   run.1 = Return {| rr_success := true; rr_error := None |} /\
   storedRetry (demoOid 0) run.2 = Some (8, 3, SENT)).
Proof. vm_compute. repeat split. Qed.

(** ** The workspace repository *)

Section WorkspaceRepositoryFacts.
Import MongoWorkspaceRepository.

Lemma mapMember_ok m w :
  wfMember m = true -> mapMember m w = (Return m, w).
Proof.
  unfold wfMember. intros [Hid Hinv%bool_decide_eq_true]%andb_prop.
  unfold mapMember. rewrite (bind_Return _ _ _ _ _ (BaseId_new_ok _ w Hid)).
  rewrite Hinv. by destruct m.
Qed.

Lemma workspace_mapMongoToDomain_ok id doc w :
  wfWorkspaceDoc id doc = true ->
  mapMongoToDomain id doc w = (Return (workspaceOf id doc), w).
Proof.
  unfold wfWorkspaceDoc. intros [[Hid Ho]%andb_prop Hms]%andb_prop.
  unfold mapMongoToDomain.
  rewrite (bind_Return _ _ _ _ _ (BaseId_new_ok _ w Hid)).
  rewrite (bind_Return _ _ _ _ _ (BaseId_new_ok _ w Ho)).
  erewrite bind_Return; [reflexivity|].
  rewrite (mapM_ok _ (fun m => m)).
  - by rewrite map_id.
  - apply Forall_forall. intros m Hm. apply mapMember_ok.
    rewrite forallb_forall in Hms. apply Hms. by apply list_elem_of_In.
Qed.

Lemma workspace_findById_ok id doc w :
  faults w = [] -> workspaces w !! id = Some doc -> wfWorkspaceDoc id doc = true ->
  findById id w = (Return (Some (workspaceOf id doc)), w).
Proof.
  intros Hf Hl Hwf. unfold findById.
  rewrite (bind_Return _ _ _ _ _ (dbRoundTrip_ok w Hf)).
  unfold gets, bind at 1. rewrite Hl.
  by rewrite (bind_Return _ _ _ _ _ (workspace_mapMongoToDomain_ok id doc w Hwf)).
Qed.

Lemma workspace_findById_missing id w :
  faults w = [] -> workspaces w !! id = None ->
  findById id w = (Return None, w).
Proof.
  intros Hf Hl. unfold findById.
  rewrite (bind_Return _ _ _ _ _ (dbRoundTrip_ok w Hf)).
  unfold gets, bind at 1. by rewrite Hl.
Qed.

Lemma workspace_update_ok id patch doc w :
  faults w = [] -> workspaces w !! id = Some doc ->
  let result := applyPatch patch (clock w) doc in
  wfWorkspaceDoc id result = true ->
  update id patch w =
    (Return (Some (workspaceOf id result)),
     set_workspaces (<[id := result]> (workspaces w)) w).
Proof.
  intros Hf Hl result Hwf. unfold update, newDate, gets, bind at 1.
  rewrite (bind_Return _ _ _ _ _ (dbRoundTrip_ok w Hf)).
  unfold bind at 1. rewrite Hl. unfold modify, bind at 1.
  by rewrite (bind_Return _ _ _ _ _ (workspace_mapMongoToDomain_ok id _ _ Hwf)).
Qed.
End WorkspaceRepositoryFacts.

Lemma wfWorkspaceDoc_with id doc members invites updatedAt :
  wfWorkspaceDoc id doc = true -> forallb wfMember members = true ->
  wfWorkspaceDoc id (mw_with members invites updatedAt doc) = true.
Proof.
  unfold wfWorkspaceDoc. intros [[Hid Ho]%andb_prop _]%andb_prop Hms.
  cbn [mw_with mw_ownerId mw_members]. by rewrite Hid, Ho, Hms.
Qed.

Lemma wfWorkspaceDoc_members id doc :
  wfWorkspaceDoc id doc = true -> forallb wfMember (mw_members doc) = true.
Proof. unfold wfWorkspaceDoc. by intros [_ ?]%andb_prop. Qed.


Lemma forallb_filter_keep {A} (p q : A -> bool) l :
  forallb p l = true -> forallb p (List.filter q l) = true.
Proof.
  rewrite !forallb_forall. intros H x [Hx _]%filter_In. by apply H.
Qed.

Lemma filter_absent (userId : string) (members : list WorkspaceMember) :
  userId ∉ memberIds members ->
  List.filter (fun m => negb (String.eqb (wm_userId m) userId)) members = members.
Proof.
  induction members as [|m ms IH]; [done|].
  intros Hn. apply not_elem_of_cons in Hn as [Hne Hn].
  cbn [List.filter].
  destruct (String.eqb (wm_userId m) userId) eqn:E.
  - apply String.eqb_eq in E. by subst.
  - cbn [negb]. by rewrite IH.
Qed.



Lemma workspaceOf_ownerId id doc : w_ownerId (workspaceOf id doc) = mw_ownerId doc.
Proof. reflexivity. Qed.



(** ** WorkspaceService.createWorkspace *)

Section WorkspaceServiceFacts.
Import MongoWorkspaceRepository.

Lemma workspace_findBySlug_none slug w :
  faults w = [] ->
  findOneBy (fun doc => String.eqb (mw_slug doc) slug) (workspaces w) = None ->
  findBySlug slug w = (Return None, w).
Proof.
  intros Hf Hs. unfold findBySlug.
  rewrite (bind_Return _ _ _ _ _ (dbRoundTrip_ok w Hf)).
  unfold gets, bind at 1. by rewrite Hs.
Qed.

Lemma workspace_create_ok ws w :
  let id := oidGen w (oidNext w) in
  let createdAt := Some (default (clock w) (w_createdAt ws)) in
  let updatedAt := Some (default (clock w) (w_updatedAt ws)) in
  faults w = [] -> nonEmpty id = true -> workspaces w !! id = None ->
  create ws w =
    (Return (w_set_id_stamps (Some id) createdAt updatedAt ws),
     set_workspaces
       (<[id := {| mw_name := w_name ws; mw_slug := w_slug ws;
                   mw_description := w_description ws; mw_logo := w_logo ws;
                   mw_ownerId := w_ownerId ws; mw_plan := w_plan ws;
                   mw_status := w_status ws; mw_members := w_members ws;
                   mw_invites := w_invites ws; mw_settings := w_settings ws;
                   mw_createdAt := createdAt; mw_updatedAt := updatedAt |}]>
          (workspaces w))
       (set_oidNext (S (oidNext w)) w)).
Proof.
  intros id createdAt updatedAt Hf Hid Hl. unfold create, newDate, gets, bind at 1.
  rewrite (bind_Return _ _ _ _ _ (dbRoundTrip_ok w Hf)).
  unfold newObjectId, bind at 1 2. simpl. fold id. rewrite Hl.
  unfold modify, bind at 1.
  by rewrite (bind_Return _ _ _ _ _ (BaseId_new_ok id _ Hid)).
Qed.
End WorkspaceServiceFacts.

(** C4 (as the code has it). [createWorkspace] stores the workspace and
    then writes an explicit OWNER row for the creator: the workspace it
    returns, and the stored one, have exactly one member, the owner at
    role OWNER. *)
Theorem createWorkspace_adds_owner_row (data : CreateWorkspaceData) (w : World) :
  let id := oidGen w (oidNext w) in
  faults w = [] ->
  findOneBy (fun doc => String.eqb (mw_slug doc) (cw_slug data)) (workspaces w) = None ->
  nonEmpty (cw_ownerId data) = true ->
  nonEmpty id = true -> workspaces w !! id = None ->
  exists ws w',
    WorkspaceService.createWorkspace data w = (Return ws, w') /\
    w_id ws = Some id /\
    w_ownerId ws = cw_ownerId data /\
    w_members ws = [ownerRow (cw_ownerId data) (clock w)] /\
    mw_members <$> workspaces w' !! id = Some [ownerRow (cw_ownerId data) (clock w)].
Proof.
  intros id Hf Hslug Ho Hid Hfresh. unfold WorkspaceService.createWorkspace.
  rewrite (bind_Return _ _ _ _ _ (workspace_findBySlug_none _ w Hf Hslug)).
  rewrite (bind_Return _ _ _ _ _ (BaseId_new_ok _ w Ho)).
  unfold newDate, gets, bind at 1.
  unfold MongoWorkspaceRepository.save. cbn [w_id Workspace_new wd_id].
  rewrite (bind_Return _ _ _ _ _ (workspace_create_ok _ w Hf Hid Hfresh)).
  fold id. cbn [w_id w_set_id_stamps].
  erewrite bind_Return by (by apply BaseId_new_ok).
  unfold bind at 1. cbn [clock set_workspaces set_oidNext].
  unfold bind at 1.
  erewrite bind_Return; cycle 1.
  { apply workspace_update_ok;
      [exact Hf | world_simpl; rewrite lookup_insert_eq; reflexivity |].
    unfold wfWorkspaceDoc, wfMember. cbn. by rewrite Hid, Ho. }
  eexists _, _. split; [reflexivity|]. cbn.
  repeat split. by rewrite lookup_insert_eq.
Qed.

Lemma createWorkspace_adds_owner_row_witness :
  faults emptyWorld = [] /\
  exists ws w',
    WorkspaceService.createWorkspace teamData emptyWorld = (Return ws, w') /\
    w_members ws = [ownerRow "clerk_owner" 1000%Z] /\
    mw_members <$> workspaces w' !! teamId = Some [ownerRow "clerk_owner" 1000%Z].
Proof.
  split; [reflexivity|].
  destruct (createWorkspace_adds_owner_row teamData emptyWorld)
    as (ws & w' & Hrun & _ & _ & Hms & Hst);
    [reflexivity | vm_compute; reflexivity | reflexivity | reflexivity | reflexivity |].
  exists ws, w'. split; [exact Hrun|]. split; [exact Hms | exact Hst].
Defined.

(** C4 (the claim as stated fails). After [createWorkspace] returns, the
    members list does contain an entry for the owner, in the returned
    workspace and in the store. *)
Lemma createWorkspace_lists_owner :
  exists ws w',
    WorkspaceService.createWorkspace teamData emptyWorld = (Return ws, w') /\
    "clerk_owner" ∈ memberIds (w_members ws) /\
    storedMember teamId "clerk_owner" w' = true.
Proof.
  eexists _, _. split; [vm_compute; reflexivity|].
  split; [by apply list_elem_of_here | reflexivity].
Qed.

(** ** WorkspaceService.removeMember *)

Lemma applyPatch_members members now doc :
  MongoWorkspaceRepository.applyPatch (WorkspaceService.membersPatch members now) now doc
  = mw_with members (mw_invites doc) (Some now) doc.
Proof. reflexivity. Qed.

(** C8 (as the code has it). For a stored workspace, [removeMember]
    throws the owner error exactly when the user is the owner, and then
    writes nothing.  Removing a user who is neither the owner nor a
    member succeeds and leaves the member list, and every field but
    [updatedAt], as stored; [updatedAt] is set to the time of the call.
    A second such call, at any later time, succeeds in the same way: the
    member list is still the same and [updatedAt] is stamped again. *)
Theorem removeMember_owner_or_absent
    (workspaceId userId : string) (doc : MongoWorkspace) (w : World) :
  faults w = [] ->
  workspaces w !! workspaceId = Some doc ->
  wfWorkspaceDoc workspaceId doc = true ->
  let run := WorkspaceService.removeMember workspaceId userId w in
  let touched now := mw_with (mw_members doc) (mw_invites doc) (Some now) doc in
  (userId = mw_ownerId doc ->
     run = (Throw "Não é possível remover o proprietário do workspace", w)) /\
  (userId <> mw_ownerId doc -> exists ws, run.1 = Return (Some ws)) /\
  (userId <> mw_ownerId doc -> userId ∉ memberIds (mw_members doc) ->
     run = (Return (Some (workspaceOf workspaceId (touched (clock w)))),
            set_workspaces (<[workspaceId := touched (clock w)]> (workspaces w)) w) /\
     forall later,
       let w1 := set_clock later run.2 in
       WorkspaceService.removeMember workspaceId userId w1 =
         (Return (Some (workspaceOf workspaceId (touched later))),
          set_workspaces (<[workspaceId := touched later]> (workspaces w1)) w1)).
Proof.
  intros Hf Hdoc Hwf run touched.
  assert (Hrun : forall w0 d, faults w0 = [] -> workspaces w0 !! workspaceId = Some d ->
            wfWorkspaceDoc workspaceId d = true -> userId <> mw_ownerId d ->
            WorkspaceService.removeMember workspaceId userId w0 =
              (let d' := mw_with
                           (List.filter (fun m => negb (String.eqb (wm_userId m) userId))
                              (mw_members d))
                           (mw_invites d) (Some (clock w0)) d in
               (Return (Some (workspaceOf workspaceId d')),
                set_workspaces (<[workspaceId := d']> (workspaces w0)) w0))).
  { intros w0 d Hf0 Hd Hwf0 Hne. unfold WorkspaceService.removeMember.
    rewrite (bind_Return _ _ _ _ _ (workspace_findById_ok _ _ _ Hf0 Hd Hwf0)).
    rewrite workspaceOf_ownerId.
    destruct (String.eqb_spec (mw_ownerId d) userId) as [E|_]; [by subst|].
    unfold newDate, gets, bind at 1.
    rewrite (workspace_update_ok _ _ _ _ Hf0 Hd); [done|].
    rewrite applyPatch_members. apply wfWorkspaceDoc_with; [done|].
    apply forallb_filter_keep. by eapply wfWorkspaceDoc_members. }
  split; [|split].
  - intros ->. unfold run, WorkspaceService.removeMember.
    rewrite (bind_Return _ _ _ _ _ (workspace_findById_ok _ _ _ Hf Hdoc Hwf)).
    rewrite workspaceOf_ownerId.
    by rewrite String.eqb_refl.
  - intros Hne. unfold run. rewrite (Hrun w doc Hf Hdoc Hwf Hne). by eexists.
  - intros Hne Habs. unfold run.
    rewrite (Hrun w doc Hf Hdoc Hwf Hne). cbn zeta.
    rewrite (filter_absent _ _ Habs). split; [done|].
    intros later. cbn [snd].
    erewrite Hrun; [|exact Hf|world_simpl; by apply lookup_insert_eq| |done]; cycle 1.
    { apply wfWorkspaceDoc_with; [done|]. by eapply wfWorkspaceDoc_members. }
    cbn [mw_members mw_invites mw_with].
    by rewrite (filter_absent _ _ Habs).
Qed.

Lemma teamWorld_doc : workspaces teamWorld !! teamId = Some teamDoc.
Proof. vm_compute. reflexivity. Qed.

Lemma removeMember_owner_or_absent_witness :
  faults teamWorld = [] /\
  workspaces teamWorld !! teamId = Some teamDoc /\
  wfWorkspaceDoc teamId teamDoc = true /\
  "ghost" <> mw_ownerId teamDoc /\
  ("ghost" ∉ memberIds (mw_members teamDoc)) /\
  (let run := WorkspaceService.removeMember teamId "ghost" teamWorld in
   let touched now := mw_with (mw_members teamDoc) (mw_invites teamDoc) (Some now) teamDoc in
   run.1 = Return (Some (workspaceOf teamId (touched 2000%Z))) /\
   (WorkspaceService.removeMember teamId "ghost" (set_clock 2500 run.2)).1
     = Return (Some (workspaceOf teamId (touched 2500%Z)))).
Proof.
  assert (Hne : "ghost" <> mw_ownerId teamDoc) by (by intros [=]).
  assert (Habs : "ghost" ∉ memberIds (mw_members teamDoc)).
  { intros [[=]|H]%elem_of_cons. by apply elem_of_nil in H. }
  split; [reflexivity|]. split; [exact teamWorld_doc|]. split; [reflexivity|].
  split; [exact Hne|]. split; [exact Habs|].
  destruct (removeMember_owner_or_absent teamId "ghost" teamDoc teamWorld)
    as (_ & _ & H); [reflexivity | exact teamWorld_doc | reflexivity |].
  destruct (H Hne Habs) as [H1 H2]. cbn zeta. split.
  - by rewrite H1.
  - by rewrite (H2 2500%Z).
Defined.

(** C8 (the claim as stated fails). Removing a user who is neither the
    owner nor a member succeeds, but not without a side effect: the
    stored workspace gets a new [updatedAt]. *)
Lemma removeMember_absent_touches_store :
  let run := WorkspaceService.removeMember teamId "ghost" teamWorld in
  (exists ws, run.1 = Return (Some ws)) /\
  storedMember teamId "ghost" teamWorld = false /\
  mw_updatedAt <$> workspaces teamWorld !! teamId = Some (Some 1000%Z) /\
  mw_updatedAt <$> workspaces run.2 !! teamId = Some (Some 2000%Z) /\
  run.2 <> teamWorld.
Proof.
  cbn zeta. split; [eexists; vm_compute; reflexivity|].
  split; [reflexivity|]. split; [vm_compute; reflexivity|].
  split; [vm_compute; reflexivity|].
  intros H. apply (f_equal (fun w => mw_updatedAt <$> workspaces w !! teamId)) in H.
  vm_compute in H. discriminate H.
Qed.

(** ** The accept route *)

Section AcceptFacts.
Import MongoWorkspaceRepository.








End AcceptFacts.















(** C7 (the code at the failing input). Ann is a member of the team: she
    accepted an invite, and her row is listed under her Clerk id.  The
    invite route looks her up by e-mail and tests the roster for her
    internal id, so it does not find her: inviting her again succeeds and
    stores a new pending invite. *)
Theorem invite_existing_member_not_refused :
  let w := set_clock 4000%Z acceptedWorld in
  let run := inviteAnn w in
  storedMember teamId "clerk_ann" w = true /\
  (UserService.findByEmail "ann@x.com" w).1
    = Return (Some {| u_id := Some "u_ann"; u_clerkId := "clerk_ann";
                      u_name := "Ann"; u_email := "ann@x.com" |}) /\
  run.1 = Return (json (InviteResultsBody ["ann@x.com"] []) 200) /\
  (mw_invites <$> workspaces run.2 !! teamId) ≫= last
    = Some {| wi_id := demoToken 3; wi_email := "ann@x.com"; wi_role := EDITOR;
              wi_invitedByClerkId := "clerk_owner"; wi_token := demoToken 2;
              wi_expiresAt := addDays 4000 7; wi_createdAt := 4000%Z;
              wi_accepted := Some false; wi_acceptedAt := None;
              wi_acceptedByClerkId := None |}.
Proof. vm_compute. repeat split. Qed.

(** ** The project repository *)

Section ProjectRepositoryFacts.
Import MongoProjectRepository.

Lemma project_mapMember_ok m w :
  wfProjectMember m = true -> mapMember m w = (Return m, w).
Proof.
  unfold wfProjectMember. intros [Hu Ha]%andb_prop. unfold mapMember.
  rewrite (bind_Return _ _ _ _ _ (BaseId_new_ok _ w Hu)).
  rewrite (bind_Return _ _ _ _ _ (BaseId_new_ok _ w Ha)). by destruct m.
Qed.

Lemma project_mapMongoToDomain_ok id doc w :
  wfProjectDoc id doc = true ->
  mapMongoToDomain id doc w = (Return (projectOf id doc), w).
Proof.
  unfold wfProjectDoc, wfRoster.
  intros [[[Hid Hw]%andb_prop Hc]%andb_prop Hms]%andb_prop.
  unfold mapMongoToDomain.
  rewrite (bind_Return _ _ _ _ _ (BaseId_new_ok _ w Hid)).
  rewrite (bind_Return _ _ _ _ _ (BaseId_new_ok _ w Hw)).
  rewrite (bind_Return _ _ _ _ _ (BaseId_new_ok _ w Hc)).
  unfold projectOf. destruct (mp_members doc) as [ms|]; [|done].
  erewrite bind_Return; [reflexivity|].
  erewrite bind_Return; [reflexivity|].
  rewrite (mapM_ok _ (fun m => m)).
  - by rewrite map_id.
  - apply Forall_forall. intros m Hm. apply project_mapMember_ok.
    cbn in Hms. rewrite forallb_forall in Hms. apply Hms. by apply list_elem_of_In.
Qed.

Lemma project_findById_ok id doc w :
  faults w = [] -> projects w !! id = Some doc -> wfProjectDoc id doc = true ->
  findById id w = (Return (Some (projectOf id doc)), w).
Proof.
  intros Hf Hl Hwf. unfold findById.
  rewrite (bind_Return _ _ _ _ _ (dbRoundTrip_ok w Hf)).
  unfold gets, bind at 1. rewrite Hl.
  by rewrite (bind_Return _ _ _ _ _ (project_mapMongoToDomain_ok id doc w Hwf)).
Qed.

Lemma project_update_ok id patch doc w :
  faults w = [] -> projects w !! id = Some doc ->
  let result := applyPatch patch (clock w) doc in
  wfProjectDoc id result = true ->
  update id patch w =
    (Return (Some (projectOf id result)),
     set_projects (<[id := result]> (projects w)) w).
Proof.
  intros Hf Hl result Hwf. unfold update.
  rewrite (bind_Return _ _ _ _ _ (dbRoundTrip_ok w Hf)).
  unfold newDate, gets, bind at 1. unfold bind at 1. rewrite Hl.
  unfold modify, bind at 1.
  by rewrite (bind_Return _ _ _ _ _ (project_mapMongoToDomain_ok id _ _ Hwf)).
Qed.
End ProjectRepositoryFacts.

Lemma wfProjectDoc_id id doc : wfProjectDoc id doc = true -> nonEmpty id = true.
Proof.
  unfold wfProjectDoc. by intros [[[? _]%andb_prop _]%andb_prop _]%andb_prop.
Qed.

Lemma wfProjectDoc_with id doc visibility members updatedAt :
  wfProjectDoc id doc = true -> wfRoster members = true ->
  wfProjectDoc id (mp_with visibility members updatedAt doc) = true.
Proof.
  unfold wfProjectDoc. intros [[[Hid Hw]%andb_prop Hc]%andb_prop _]%andb_prop Hms.
  cbn [mp_with mp_workspaceId mp_createdBy mp_members]. by rewrite Hid, Hw, Hc, Hms.
Qed.

Lemma wfProjectDoc_roster id doc :
  wfProjectDoc id doc = true -> wfRoster (mp_members doc) = true.
Proof. unfold wfProjectDoc. by intros [_ ?]%andb_prop. Qed.

(** ** No update of a project touches a roster it was not given *)

#[local] Instance sameRosters_refl : Reflexive sameRosters.
Proof. by intros w id. Qed.

#[local] Instance sameRosters_trans : Transitive sameRosters.
Proof. intros w1 w2 w3 H12 H23 id. by rewrite H23, H12. Qed.

(** Steps of a frame proof: the class goals are solved on the way. *)
Ltac frame_classes :=
  try match goal with
      | |- Reflexive _ => apply _
      | |- Transitive _ => apply _
      end.
Ltac frame_leaf :=
  first [ apply preserves_ret | apply preserves_throw | apply preserves_gets
        | apply preserves_BaseId_new ]; frame_classes.
Ltac frame_bind := apply preserves_bind; frame_classes.
Ltac frame_try := apply preserves_tryCatch; frame_classes.

Lemma sameRosters_projects w w' : projects w' = projects w -> sameRosters w w'.
Proof. intros H id. by rewrite H. Qed.

Lemma preserves_dbRoundTrip : preserves sameRosters dbRoundTrip.
Proof.
  intros w. unfold dbRoundTrip. destruct (faults w) as [|[] ?]; by apply sameRosters_projects.
Qed.

Lemma preserves_project_mapMongoToDomain id doc :
  preserves sameRosters (MongoProjectRepository.mapMongoToDomain id doc).
Proof.
  unfold MongoProjectRepository.mapMongoToDomain.
  frame_bind; [frame_leaf | intros pid].
  frame_bind; [frame_leaf | intros workspaceId].
  frame_bind; [frame_leaf | intros createdBy].
  frame_bind; [| intros ?; frame_leaf].
  destruct (mp_members doc); [|frame_leaf].
  frame_bind; [| intros ?; frame_leaf].
  apply preserves_mapM; frame_classes. intros m.
  unfold MongoProjectRepository.mapMember.
  frame_bind; [frame_leaf | intros userId].
  frame_bind; [frame_leaf | intros addedBy]. frame_leaf.
Qed.

Lemma preserves_project_findById id :
  preserves sameRosters (MongoProjectRepository.findById id).
Proof.
  unfold MongoProjectRepository.findById.
  frame_bind; [apply preserves_dbRoundTrip | intros _].
  frame_bind; [frame_leaf | intros docs].
  destruct (docs !! id); [|frame_leaf].
  frame_bind; [apply preserves_project_mapMongoToDomain | intros ?]. frame_leaf.
Qed.

Lemma preserves_project_findAll : preserves sameRosters MongoProjectRepository.findAll.
Proof.
  unfold MongoProjectRepository.findAll.
  frame_bind; [apply preserves_dbRoundTrip | intros _].
  frame_bind; [frame_leaf | intros docs].
  apply preserves_mapM; frame_classes. intros kv.
  apply preserves_project_mapMongoToDomain.
Qed.

(** An update whose patch carries no [members] leaves every stored
    roster as it was, whatever else it writes and whether or not it
    fails. *)
Lemma preserves_project_update id patch :
  pp_members patch = None ->
  preserves sameRosters (MongoProjectRepository.update id patch).
Proof.
  intros Hp w. unfold MongoProjectRepository.update, bind at 1.
  pose proof (preserves_dbRoundTrip w) as Hdb.
  destruct (dbRoundTrip w) as [[[]|e] w1] eqn:Hrt; cbn [snd] in *; [|done].
  assert (Hsame : projects w1 = projects w).
  { revert Hrt. unfold dbRoundTrip. destruct (faults w) as [|[] ?]; by intros [= <-]. }
  unfold newDate, gets, bind at 1. unfold bind at 1.
  destruct (projects w1 !! id) as [doc|] eqn:Hdoc; [|exact Hdb].
  unfold modify, bind at 1.
  set (w2 := set_projects _ w1).
  assert (H2 : sameRosters w w2).
  { intros i. unfold w2. world_simpl. rewrite <- Hsame.
    destruct (decide (i = id)) as [->|Hne].
    - rewrite lookup_insert_eq, Hdoc. cbn. by rewrite Hp.
    - by rewrite lookup_insert_ne. }
  etrans; [exact H2|].
  assert (Hk : preserves sameRosters
                 (let* p := MongoProjectRepository.mapMongoToDomain id
                              (MongoProjectRepository.applyPatch patch (clock w1) doc) in
                  ret (Some p))).
  { frame_bind; [apply preserves_project_mapMongoToDomain | intros ?]. frame_leaf. }
  apply Hk.
Qed.

(** Whatever the request and whatever happens, [updateProject] leaves
    the stored roster of every project as it was: it never truncates
    one. *)
Lemma updateProject_never_writes_roster projectId userId data :
  preserves sameRosters (ProjectService.updateProject projectId userId data).
Proof.
  unfold ProjectService.updateProject.
  frame_try; [| intros ?; frame_leaf].
  frame_bind; [frame_leaf | intros pid].
  frame_bind; [apply preserves_project_findById | intros existing].
  destruct existing as [existing|]; [|frame_leaf].
  destruct (negb _); [frame_leaf|].
  frame_bind; [| intros slugOk].
  { destruct (truthy (up_slug data)); [|frame_leaf].
    destruct (negb _); [|frame_leaf].
    unfold ProjectService.isSlugAvailable.
    frame_try; [| intros ?; frame_leaf].
    frame_bind; [apply preserves_project_findAll | intros all].
    destruct (List.find _ all) as [e|]; [|frame_leaf].
    destruct (truthy (Some projectId)), (p_id e); frame_leaf. }
  destruct (negb slugOk); [frame_leaf|].
  match goal with |- preserves _ (if ?c then _ else _) => destruct c end;
    [frame_leaf|].
  frame_bind; [frame_leaf | intros now].
  frame_bind; [frame_leaf | intros pid'].
  frame_bind; [by apply preserves_project_update | intros updated].
  destruct updated; frame_leaf.
Qed.

(** ** ProjectService.updateProject and the stored roster *)

(** C3 (as the code has it). A change of visibility by [updateProject]
    rewrites the visibility and [updatedAt] and nothing else: the stored
    roster stays as it was.  The project object that comes back has no
    member list when it is made PUBLIC, and when it is made PRIVATE it has
    the roster that is stored, the empty one if none is.  Whatever the
    request, [updateProject] leaves every stored roster as it was. *)
Theorem updateProject_visibility_keeps_roster
    (projectId userId : string) (visibility : ProjectVisibility)
    (doc : MongoProject) (w : World) :
  faults w = [] ->
  projects w !! projectId = Some doc ->
  wfProjectDoc projectId doc = true ->
  mp_createdBy doc = userId ->
  let doc' := mp_with visibility (mp_members doc) (Some (clock w)) doc in
  ProjectService.updateProject projectId userId (setVisibility visibility) w =
    (Return (succeed (projectOf projectId doc')),
     set_projects (<[projectId := doc']> (projects w)) w) /\
  mp_members doc' = mp_members doc /\
  p_members (projectOf projectId doc') =
    match visibility with
    | PRIVATE => Some (default [] (mp_members doc))
    | PUBLIC => None
    end /\
  (forall data, sameRosters w (ProjectService.updateProject projectId userId data w).2).
Proof.
  intros Hf Hdoc Hwf Hby doc'.
  pose proof (wfProjectDoc_id _ _ Hwf) as Hid.
  split; [|split; [reflexivity | split; [by destruct visibility|]]]; cycle 1.
  { intros data. apply updateProject_never_writes_roster. }
  unfold ProjectService.updateProject. apply tryCatch_Return.
  rewrite (bind_Return _ _ _ _ _ (BaseId_new_ok _ w Hid)).
  rewrite (bind_Return _ _ _ _ _ (project_findById_ok _ _ _ Hf Hdoc Hwf)).
  replace (p_createdBy (projectOf projectId doc)) with userId by (by rewrite <- Hby).
  rewrite String.eqb_refl. cbn [negb setVisibility up_slug up_name truthy].
  unfold bind at 1, ret at 1. cbn [negb].
  unfold newDate, gets, bind at 1.
  rewrite (bind_Return _ _ _ _ _ (BaseId_new_ok _ w Hid)).
  assert (Hwf' : wfProjectDoc projectId doc' = true)
    by (apply wfProjectDoc_with; [done | by eapply wfProjectDoc_roster]).
  erewrite bind_Return; cycle 1.
  { apply (project_update_ok projectId _ doc w Hf Hdoc). exact Hwf'. }
  reflexivity.
Qed.

Lemma updateProject_visibility_keeps_roster_witness :
  let w := set_clock 7000 siteWorld in
  faults w = [] /\
  projects w !! siteId = Some siteDoc /\
  wfProjectDoc siteId siteDoc = true /\
  (let doc' := mp_with PUBLIC (Some [bobRow]) (Some 7000%Z) siteDoc in
   ProjectService.updateProject siteId "clerk_owner" (setVisibility PUBLIC) w =
     (Return (succeed (projectOf siteId doc')),
      set_projects (<[siteId := doc']> (projects w)) w) /\
   mp_members doc' = Some [bobRow] /\
   p_members (projectOf siteId doc') = None /\
   (forall data,
      sameRosters w (ProjectService.updateProject siteId "clerk_owner" data w).2)).
Proof.
  cbn zeta. split; [vm_compute; reflexivity|]. split; [vm_compute; reflexivity|].
  split; [vm_compute; reflexivity|].
  apply (updateProject_visibility_keeps_roster siteId "clerk_owner" PUBLIC siteDoc
           (set_clock 7000 siteWorld)); vm_compute; reflexivity.
Defined.

(** C3 (the claim as stated fails). The private site has Bob in its
    roster.  Made public, the stored roster is still there; made private
    again, the project shows Bob again, not an empty roster. *)
Lemma visibility_change_keeps_stored_roster :
  (projects siteWorld !! siteId) ≫= mp_members = Some [bobRow] /\
  mp_visibility <$> projects sitePublic !! siteId = Some PUBLIC /\
  (projects sitePublic !! siteId) ≫= mp_members = Some [bobRow] /\
  mp_visibility <$> projects sitePrivateAgain !! siteId = Some PRIVATE /\
  (ProjectService.getEffectiveMembers siteId sitePrivateAgain).1
    = Return (succeed [bobRow]).
Proof. vm_compute. repeat split. Qed.

(** ** ProjectService.getEffectiveMembers *)







(** ** The invite route: what one e-mail decides *)

Lemma user_findByEmail_ok email found w :
  faults w = [] -> emailRegex_test email = true ->
  findOneBy (fun doc => String.eqb (mu_email doc) email) (users w) = found ->
  (forall kv, found = Some kv -> nonEmpty kv.1 = true) ->
  UserService.findByEmail email w =
    (Return ((fun kv : string * MongoUser =>
                {| u_id := Some kv.1; u_clerkId := mu_clerkId kv.2;
                   u_name := mu_name kv.2; u_email := mu_email kv.2 |}) <$> found), w).
Proof.
  intros Hf He Hfound Hid. unfold UserService.findByEmail, UserService.isValidEmail.
  rewrite He. cbn [negb].
  unfold MongoUserRepository.findByEmail, MongoUserRepository.findBy.
  rewrite (bind_Return _ _ _ _ _ (dbRoundTrip_ok w Hf)).
  unfold gets, bind at 1. rewrite Hfound.
  destruct found as [kv|]; [|done].
  unfold MongoUserRepository.mapMongoToDomain.
  unfold bind at 1. by rewrite (bind_Return _ _ _ _ _ (BaseId_new_ok _ w (Hid kv eq_refl))).
Qed.

Lemma existsb_find {A} (f : A -> bool) l :
  existsb f l = match List.find f l with Some _ => true | None => false end.
Proof. induction l as [|x l IH]; [done|]. cbn. by destruct (f x). Qed.

(** For a valid e-mail and a working store, the loop body refuses the
    e-mail when the user it resolves to has its internal id in the roster
    (or is the owner by that id), refuses it when a pending invite for
    the e-mail is stored, and else creates an invite that expires seven
    days after the time of the call and is not accepted. *)
Lemma decide_invite_outcome userId role workspace email found w :
  faults w = [] -> emailRegex_test email = true ->
  findOneBy (fun doc => String.eqb (mu_email doc) email) (users w) = found ->
  (forall kv, found = Some kv -> nonEmpty kv.1 = true) ->
  InviteRoute.decide_invite userId role workspace email w =
    if from_option
         (fun kv : string * MongoUser =>
            existsb (fun m => String.eqb (wm_userId m) kv.1) (w_members workspace)
            || String.eqb (w_ownerId workspace) kv.1) false found
    then (Return InviteRoute.AlreadyMember, w)
    else if existsb (InviteRoute.isPendingFor email (clock w)) (w_invites workspace)
    then (Return InviteRoute.PendingInvite, w)
    else (Return (InviteRoute.Create
                    {| wi_id := rng w (S (rngNext w));
                       wi_email := email;
                       wi_role := role;
                       wi_invitedByClerkId := userId;
                       wi_token := rng w (rngNext w);
                       wi_expiresAt := addDays (clock w) 7;
                       wi_createdAt := clock w;
                       wi_accepted := Some false;
                       wi_acceptedAt := None;
                       wi_acceptedByClerkId := None |}),
          set_rngNext (S (S (rngNext w))) w).
Proof.
  intros Hf He Hfound Hid. unfold InviteRoute.decide_invite.
  rewrite (bind_Return _ _ _ _ _ (user_findByEmail_ok _ _ _ Hf He Hfound Hid)).
  destruct found as [kv|]; cbn [fmap option_fmap option_map from_option].
  - unfold InviteRoute.isMemberUser at 1. cbn [u_id].
    destruct (_ || _); [done|].
    unfold newDate, gets, bind at 1. rewrite existsb_find.
    by destruct (List.find _ (w_invites workspace)).
  - unfold newDate, gets, bind at 1. rewrite existsb_find.
    by destruct (List.find _ (w_invites workspace)).
Qed.
